(** * Task-tracking service: storage and task-manager layer

    A shallow embedding of the Python sources

      - [session4_model4/models.py]   (Task, TaskStatus, TaskPriority,
                                       validate_task_data)
      - [session4_model4/storage.py]  (JSONStorage, list-of-Task variant)
      - [session1_model2/storage.py]  (JSONStorage, list-of-dict variant)
      - [session1_model2/task_manager.py] (TaskManager)

    followed by the properties of the specification that concern them.

    [session1_model2] imports a module [models] that is not among the
    sources; its tests exercise the same interface as
    [session4_model4/models.py], which is the [models] module used
    throughout. *)

From Stdlib Require Import String Ascii List ZArith Lia Bool Arith.
Import ListNotations.

Set Warnings "-register-all".
Local Open Scope string_scope.
Local Open Scope list_scope.

(* ================================================================== *)
(** * Python values, exceptions and the error monad                     *)
(* ================================================================== *)

Module Py.

(** Values that [json.load] can produce and that request payloads carry.
    Floats are left out.  A [PDict] lists the items of a dict in
    iteration order; its keys are the (distinct) string keys of the
    dict, and lookup takes the first item with the key. *)
Inductive pyval : Type :=
| PNone
| PBool (b : bool)
| PInt (z : Z)
| PStr (s : string)
| PList (l : list pyval)
| PDict (d : list (string * pyval)).

(** Exceptions, by class; a class stands for its subclasses too, so
    the [UnicodeDecodeError] of reading a file that is not text is a
    [ValueError] (the [JSONDecodeError] of [json.load] never leaves the
    two [_load]s and has no constructor).  A message is kept where the
    program builds it; [MsgOf p e] is the f-string [f"{p}{str(e)}"], [MsgVal p v] is
    [f"{p}{v}"] for a value [v] that need not be a string, and [LibMsg] is a
    message produced by the interpreter or a library ([Enum] lookup,
    [datetime.fromisoformat]), whose text is not modelled. *)
Inductive exn : Type :=
| ValueError (m : msg)
| TypeError
| AttributeError
| KeyError
| IOError (m : msg)
with msg : Type :=
| Msg (text : string)
| MsgOf (prefix : string) (cause : exn)
| MsgVal (prefix : string) (v : pyval)
| LibMsg.

Inductive result (A : Type) : Type :=
| Ok (a : A)
| Err (e : exn).
Arguments Ok {A} a.
Arguments Err {A} e.

Definition bind {A B} (r : result A) (k : A -> result B) : result B :=
  match r with
  | Ok a => k a
  | Err e => Err e
  end.

(** [bool(v)] *)
Definition truthy (v : pyval) : bool :=
  match v with
  | PNone => false
  | PBool b => b
  | PInt z => negb (Z.eqb z 0)
  | PStr s => negb (String.eqb s "")
  | PList l => match l with [] => false | _ => true end
  | PDict d => match d with [] => false | _ => true end
  end.

(** [len(v)]; a [TypeError] for values without a length. *)
Definition len (v : pyval) : result nat :=
  match v with
  | PStr s => Ok (String.length s)
  | PList l => Ok (List.length l)
  | PDict d => Ok (List.length d)
  | _ => Err TypeError
  end.

(** Lookup in the items of a dict. *)
Fixpoint assoc {V : Type} (k : string) (d : list (string * V)) : option V :=
  match d with
  | [] => None
  | (k', v) :: d' => if String.eqb k k' then Some v else assoc k d'
  end.

(** [a == b].  [True == 1] holds in Python; dicts compare as maps. *)
Fixpoint eq (a b : pyval) {struct a} : bool :=
  match a, b with
  | PNone, PNone => true
  | PBool x, PBool y => Bool.eqb x y
  | PBool x, PInt y => Z.eqb (if x then 1 else 0) y
  | PInt x, PBool y => Z.eqb x (if y then 1 else 0)
  | PInt x, PInt y => Z.eqb x y
  | PStr x, PStr y => String.eqb x y
  | PList xs, PList ys =>
      (fix go (xs ys : list pyval) : bool :=
         match xs, ys with
         | [], [] => true
         | x :: xs', y :: ys' => eq x y && go xs' ys'
         | _, _ => false
         end) xs ys
  | PDict d1, PDict d2 =>
      Nat.eqb (List.length d1) (List.length d2) &&
      (fix go (d : list (string * pyval)) : bool :=
         match d with
         | [] => true
         | (k, v) :: d' =>
             match assoc k d2 with
             | Some v' => eq v v'
             | None => false
             end && go d'
         end) d1
  | _, _ => false
  end.

(** [v in xs] for a list [xs]. *)
Definition in_list (v : pyval) (xs : list pyval) : bool :=
  existsb (fun x => eq x v) xs.

(** [needle in hay] for two strings. *)
Definition substring_in (needle hay : string) : bool :=
  match String.index 0 needle hay with
  | Some _ => true
  | None => false
  end.

Fixpoint chars (s : string) : list pyval :=
  match s with
  | EmptyString => []
  | String c s' => PStr (String c EmptyString) :: chars s'
  end.

(** The items a [for] loop over [v] visits. *)
Definition iter (v : pyval) : result (list pyval) :=
  match v with
  | PList l => Ok l
  | PDict d => Ok (map (fun kv => PStr (fst kv)) d)
  | PStr s => Ok (chars s)
  | _ => Err TypeError
  end.

(** [k in v] for a string key [k]: key membership for a dict, substring
    for a string, element membership for a list. *)
Definition contains (k : string) (v : pyval) : result bool :=
  match v with
  | PDict d => Ok (match assoc k d with Some _ => true | None => false end)
  | PStr s => Ok (substring_in k s)
  | PList l => Ok (in_list (PStr k) l)
  | _ => Err TypeError
  end.

(** [v[k]] for a string key [k]. *)
Definition getitem (k : string) (v : pyval) : result pyval :=
  match v with
  | PDict d => match assoc k d with
               | Some x => Ok x
               | None => Err KeyError
               end
  | _ => Err TypeError
  end.

(** [v.get(k, default)] *)
Definition get (k : string) (default : pyval) (v : pyval) : result pyval :=
  match v with
  | PDict d => Ok (match assoc k d with Some x => x | None => default end)
  | _ => Err AttributeError
  end.

(** ['; '.join(xs)] *)
Definition join (sep : string) (xs : list string) : string :=
  String.concat sep xs.

End Py.
Import Py.

Notation "x <- c ;; k" := (Py.bind c (fun x => k))
  (at level 61, c at next level, right associativity).

(* ================================================================== *)
(** * [datetime]: naive timestamps, [isoformat] and [fromisoformat]     *)
(* ================================================================== *)

Module Datetime.

(** A naive [datetime] (no time zone), the kind [datetime.utcnow()]
    returns.  The library only builds values that satisfy
    [datetime_ok]. *)
Record datetime : Type := mkDatetime {
  year : Z; month : Z; day : Z;
  hour : Z; minute : Z; second : Z; microsecond : Z
}.

Definition is_leap (y : Z) : bool :=
  Z.eqb (y mod 4) 0 && (negb (Z.eqb (y mod 100) 0) || Z.eqb (y mod 400) 0).

Definition days_in_month (y m : Z) : Z :=
  if Z.eqb m 2 then (if is_leap y then 29 else 28)
  else if Z.eqb m 4 || Z.eqb m 6 || Z.eqb m 9 || Z.eqb m 11 then 30
  else 31.

Definition in_range (lo hi x : Z) : bool := Z.leb lo x && Z.leb x hi.

Definition datetime_ok (d : datetime) : bool :=
  in_range 1 9999 (year d) && in_range 1 12 (month d) &&
  in_range 1 (days_in_month (year d) (month d)) (day d) &&
  in_range 0 23 (hour d) && in_range 0 59 (minute d) &&
  in_range 0 59 (second d) && in_range 0 999999 (microsecond d).

Definition digit_char (d : Z) : ascii := ascii_of_nat (48 + Z.to_nat d).

Definition char_digit (c : ascii) : option Z :=
  let n := Z.of_nat (nat_of_ascii c) in
  if Z.leb 48 n && Z.leb n 57 then Some (n - 48)%Z else None.

(** [n] in decimal, zero-padded to [k] digits. *)
Fixpoint zpad (k : nat) (n : Z) : string :=
  match k with
  | O => ""
  | S k' => String (digit_char (n / 10 ^ Z.of_nat k')%Z)
                   (zpad k' (n mod 10 ^ Z.of_nat k')%Z)
  end.

(** [d.isoformat()]: [YYYY-MM-DDTHH:MM:SS], followed by [.ffffff] when
    the microsecond is not zero. *)
Definition isoformat (d : datetime) : string :=
  zpad 4 (year d) ++ "-" ++ zpad 2 (month d) ++ "-" ++ zpad 2 (day d) ++
  "T" ++ zpad 2 (hour d) ++ ":" ++ zpad 2 (minute d) ++ ":" ++
  zpad 2 (second d) ++
  (if Z.eqb (microsecond d) 0 then "" else "." ++ zpad 6 (microsecond d)).

(** Reads exactly [k] decimal digits from the front of [s]. *)
Fixpoint take_digits (k : nat) (acc : Z) (s : string) : option (Z * string) :=
  match k with
  | O => Some (acc, s)
  | S k' =>
      match s with
      | String c s' =>
          match char_digit c with
          | Some d => take_digits k' (acc * 10 + d)%Z s'
          | None => None
          end
      | EmptyString => None
      end
  end.

Definition expect (c : ascii) (s : string) : option string :=
  match s with
  | String c' s' => if Ascii.eqb c c' then Some s' else None
  | EmptyString => None
  end.

(** The fraction after the seconds: nothing, or a dot and exactly three
    or six digits. *)
Definition parse_fraction (s : string) : option Z :=
  match s with
  | EmptyString => Some 0%Z
  | String c r =>
      if Ascii.eqb c "." then
        match String.length r with
        | 3 => match take_digits 3 0 r with
               | Some (ms, _) => Some (ms * 1000)%Z
               | None => None
               end
        | 6 => match take_digits 6 0 r with
               | Some (us, _) => Some us
               | None => None
               end
        | _ => None
        end
      else None
  end.

(** The time part [HH[:MM[:SS[.fff[fff]]]]]. *)
Definition parse_time (s : string) : option (Z * Z * Z * Z) :=
  match take_digits 2 0 s with
  | None => None
  | Some (h, EmptyString) => Some (h, 0, 0, 0)%Z
  | Some (h, s1) =>
      match expect ":" s1 with
      | None => None
      | Some s2 =>
          match take_digits 2 0 s2 with
          | None => None
          | Some (mi, EmptyString) => Some (h, mi, 0, 0)%Z
          | Some (mi, s3) =>
              match expect ":" s3 with
              | None => None
              | Some s4 =>
                  match take_digits 2 0 s4 with
                  | None => None
                  | Some (sec, s5) =>
                      match parse_fraction s5 with
                      | Some us => Some (h, mi, sec, us)
                      | None => None
                      end
                  end
              end
          end
      end
  end.

(** [datetime.fromisoformat(s)] for timestamps without a UTC offset:
    [YYYY-MM-DD], optionally followed by one separator character and
    the time part; [None] stands for the [ValueError] of the library.
    Strings with an offset are not covered by the model (they are
    rejected here). *)
Definition fromisoformat (s : string) : option datetime :=
  match take_digits 4 0 s with
  | None => None
  | Some (y, s1) =>
  match expect "-" s1 with
  | None => None
  | Some s2 =>
  match take_digits 2 0 s2 with
  | None => None
  | Some (m, s3) =>
  match expect "-" s3 with
  | None => None
  | Some s4 =>
  match take_digits 2 0 s4 with
  | None => None
  | Some (d, s5) =>
      let time :=
        match s5 with
        | EmptyString => Some (0, 0, 0, 0)%Z
        | String _ EmptyString => Some (0, 0, 0, 0)%Z
        | String _ t => parse_time t
        end in
      match time with
      | None => None
      | Some (h, mi, sec, us) =>
          let r := mkDatetime y m d h mi sec us in
          if datetime_ok r then Some r else None
      end
  end end end end end.

End Datetime.
Import Datetime.

(* ================================================================== *)
(** * [session4_model4/models.py]                                       *)
(* ================================================================== *)

Module Models.

Inductive TaskStatus : Type := PENDING | IN_PROGRESS | COMPLETED.
Inductive TaskPriority : Type := LOW | MEDIUM | HIGH.

(** [s.value] *)
Definition status_value (s : TaskStatus) : string :=
  match s with
  | PENDING => "pending"
  | IN_PROGRESS => "in-progress"
  | COMPLETED => "completed"
  end.

Definition priority_value (p : TaskPriority) : string :=
  match p with
  | LOW => "low"
  | MEDIUM => "medium"
  | HIGH => "high"
  end.

(** [[s.value for s in TaskStatus]] and [[p.value for p in TaskPriority]] *)
Definition status_values : list pyval :=
  map (fun s => PStr (status_value s)) [PENDING; IN_PROGRESS; COMPLETED].
Definition priority_values : list pyval :=
  map (fun p => PStr (priority_value p)) [LOW; MEDIUM; HIGH].

(** [TaskStatus(v)]: the member whose value is [v], or a [ValueError]. *)
Definition TaskStatus_of (v : pyval) : result TaskStatus :=
  match v with
  | PStr s =>
      if String.eqb s "pending" then Ok PENDING
      else if String.eqb s "in-progress" then Ok IN_PROGRESS
      else if String.eqb s "completed" then Ok COMPLETED
      else Err (ValueError LibMsg)
  | _ => Err (ValueError LibMsg)
  end.

(** [TaskPriority(v)] *)
Definition TaskPriority_of (v : pyval) : result TaskPriority :=
  match v with
  | PStr s =>
      if String.eqb s "low" then Ok LOW
      else if String.eqb s "medium" then Ok MEDIUM
      else if String.eqb s "high" then Ok HIGH
      else Err (ValueError LibMsg)
  | _ => Err (ValueError LibMsg)
  end.

(** The dataclass [Task].  Python does not check the annotations
    ([title: str], [description: Optional[str]], [id: str]), so these
    three fields hold any value; [status], [priority] and [created_at]
    are only ever assigned an enum member or a [datetime]. *)
Record Task : Type := mkTask {
  title : pyval;
  description : pyval;
  status : TaskStatus;
  priority : TaskPriority;
  id : pyval;
  created_at : datetime
}.

(** What the two default factories of [Task] and the [utcnow()] of
    [from_dict] return at one call. *)
Record entropy : Type := mkEntropy {
  utcnow : datetime;
  uuid4 : string
}.

(** [Task.validate] *)
Definition validate (self : Task) : result (list string) :=
  let errors := [] in
  errors <-
    (if negb (truthy (title self)) then
       Ok (errors ++ ["Title is required"])
     else
       n <- len (title self) ;;
       if Nat.ltb 200 n then
         Ok (errors ++ ["Title must be less than 200 characters"])
       else Ok errors) ;;
  errors <-
    (match description self with
     | PNone => Ok errors
     | d =>
         n <- len d ;;
         if Nat.ltb 1000 n then
           Ok (errors ++ ["Description must be less than 1000 characters"])
         else Ok errors
     end) ;;
  Ok errors.

(** [Task.to_dict] *)
Definition to_dict (self : Task) : pyval :=
  PDict [ ("id", id self);
          ("title", title self);
          ("description", description self);
          ("status", PStr (status_value (status self)));
          ("priority", PStr (priority_value (priority self)));
          ("created_at", PStr (isoformat (created_at self))) ].

(** ['k' in data and data['k']], as a truth value *)
Definition present_and_truthy (k : string) (data : pyval) : result bool :=
  c <- contains k data ;;
  if c then (v <- getitem k data ;; Ok (truthy v)) else Ok false.

(** [datetime.fromisoformat(v)]: a [TypeError] when [v] is not a string,
    a [ValueError] when the string does not parse. *)
Definition fromisoformat_value (v : pyval) : result datetime :=
  match v with
  | PStr s =>
      match fromisoformat s with
      | Some d => Ok d
      | None => Err (ValueError LibMsg)
      end
  | _ => Err TypeError
  end.

(** The [try] block of [Task.from_dict]. *)
Definition from_dict_body (e : entropy) (data : pyval) : result Task :=
  status <-
    (b <- present_and_truthy "status" data ;;
     if b then (v <- getitem "status" data ;; TaskStatus_of v)
     else Ok PENDING) ;;
  priority <-
    (b <- present_and_truthy "priority" data ;;
     if b then (v <- getitem "priority" data ;; TaskPriority_of v)
     else Ok MEDIUM) ;;
  created_at <-
    (b <- present_and_truthy "created_at" data ;;
     if b then (v <- getitem "created_at" data ;; fromisoformat_value v)
     else Ok (utcnow e)) ;;
  id <- get "id" (PStr (uuid4 e)) data ;;
  title <- get "title" (PStr "") data ;;
  description <- get "description" PNone data ;;
  Ok (mkTask title description status priority id created_at).

(** [Task.from_dict]: a [ValueError] or [KeyError] of the body is raised
    again as [ValueError(f"Invalid task data: {str(e)}")]; any other
    exception passes through. *)
Definition from_dict (e : entropy) (data : pyval) : result Task :=
  match from_dict_body e data with
  | Ok t => Ok t
  | Err (ValueError m) =>
      Err (ValueError (MsgOf "Invalid task data: " (ValueError m)))
  | Err KeyError => Err (ValueError (MsgOf "Invalid task data: " KeyError))
  | Err x => Err x
  end.

(** [validate_task_data(data, partial)] *)
Definition validate_task_data (data : pyval) (partial : bool)
  : result (list string) :=
  let errors := [] in
  errors <-
    (if negb partial then
       t <- get "title" PNone data ;;
       if negb (truthy t) then
         Ok (errors ++ ["Title is required"])
       else
         t' <- get "title" (PStr "") data ;;
         n <- len t' ;;
         if Nat.ltb 200 n then
           Ok (errors ++ ["Title must be less than 200 characters"])
         else Ok errors
     else Ok errors) ;;
  errors <-
    (c <- contains "status" data ;;
     if c then
       v <- getitem "status" data ;;
       if negb (in_list v status_values) then
         Ok (errors ++
             ["Invalid status. Must be: pending, in-progress, or completed"])
       else Ok errors
     else Ok errors) ;;
  errors <-
    (c <- contains "priority" data ;;
     if c then
       v <- getitem "priority" data ;;
       if negb (in_list v priority_values) then
         Ok (errors ++ ["Invalid priority. Must be: low, medium, or high"])
       else Ok errors
     else Ok errors) ;;
  errors <-
    (c <- contains "description" data ;;
     if c then
       v <- getitem "description" data ;;
       match v with
       | PNone => Ok errors
       | _ =>
           n <- len v ;;
           if Nat.ltb 1000 n then
             Ok (errors ++
                 ["Description must be less than 1000 characters"])
           else Ok errors
       end
     else Ok errors) ;;
  Ok errors.

End Models.
Import Models.

(* ================================================================== *)
(** * The backing file and the [Storage] interface                      *)
(* ================================================================== *)

(** What the file at [self.filepath] holds: bytes that are not text in
    the encoding of the file, so that reading them raises
    [UnicodeDecodeError]; text that [json.load] rejects with
    [JSONDecodeError]; or a JSON document, given by the value
    [json.load] returns for it ([json.dump] writes the document of a
    value).  [None] is a file that does not exist.  Failures of the
    file system itself are not modelled, and neither is the lock: calls
    run one after the other. *)
Inductive file_content : Type :=
| Undecodable (bytes : string)
| Corrupt (raw : string)
| Json (v : pyval).

Definition fs : Type := option file_content.

(** The empty array that [json.dump([], f)] writes. *)
Definition empty_file : fs := Some (Json (PList [])).

(** The state-and-error monad of the operations of a store with state
    [S]: a call returns or raises, and leaves a new state. *)
Definition M (S A : Type) : Type := S -> result A * S.

(** The abstract base class [Storage]. *)
Class Storage (S : Type) : Type := {
  get_all : M S (list Task);
  get_by_id : string -> M S (option Task);
  save : Task -> M S unit;
  delete : string -> M S bool
}.

(** [task.id == other], tested by both stores *)
Definition id_is (v : pyval) (t : Task) : bool := Py.eq (id t) v.

(* ================================================================== *)
(** * [session4_model4/storage.py]: [JSONStorage] over a list of Tasks  *)
(* ================================================================== *)

Module Session4.

(** [[Task.from_dict(task_dict) for task_dict in data]]; the [i]-th call
    of [from_dict] draws [es i]. *)
Fixpoint from_dicts (es : nat -> entropy) (i : nat) (items : list pyval)
  : result (list Task) :=
  match items with
  | [] => Ok []
  | x :: r =>
      t <- from_dict (es i) x ;;
      ts <- from_dicts es (S i) r ;;
      Ok (t :: ts)
  end.

(** [JSONStorage._load]: a missing file, a [JSONDecodeError] and a
    [ValueError] (so also the [UnicodeDecodeError] of a file that is
    not text) all lead to the handler, which overwrites the file with
    an empty array; other exceptions escape. *)
Definition _load (es : nat -> entropy) (f : fs) : result (list Task) * fs :=
  match f with
  | Some (Json data) =>
      match (items <- iter data ;; from_dicts es 0 items) with
      | Ok tasks => (Ok tasks, f)
      | Err (ValueError _) => (Ok [], empty_file)
      | Err e => (Err e, f)
      end
  | Some (Corrupt _) => (Ok [], empty_file)
  | Some (Undecodable _) => (Ok [], empty_file)
  | None => (Ok [], empty_file)
  end.

(** [JSONStorage._save] *)
Definition _save (tasks : list Task) : fs :=
  Some (Json (PList (map to_dict tasks))).

Definition get_all (es : nat -> entropy) (f : fs) : result (list Task) * fs :=
  _load es f.

Definition get_by_id (es : nat -> entropy) (task_id : string) (f : fs)
  : result (option Task) * fs :=
  match _load es f with
  | (Ok tasks, f') => (Ok (find (id_is (PStr task_id)) tasks), f')
  | (Err e, f') => (Err e, f')
  end.

(** The loop of [save]: the first task with the id of [task] is
    replaced; [None] when no task has it ([task_exists] stays false). *)
Fixpoint replace_first (task : Task) (tasks : list Task)
  : option (list Task) :=
  match tasks with
  | [] => None
  | existing_task :: r =>
      if Py.eq (id existing_task) (id task) then Some (task :: r)
      else option_map (cons existing_task) (replace_first task r)
  end.

Definition upsert (task : Task) (tasks : list Task) : list Task :=
  match replace_first task tasks with
  | Some tasks' => tasks'
  | None => tasks ++ [task]
  end.

Definition save (es : nat -> entropy) (task : Task) (f : fs)
  : result unit * fs :=
  match _load es f with
  | (Ok tasks, _) => (Ok tt, _save (upsert task tasks))
  | (Err e, f') => (Err e, f')
  end.

Definition delete (es : nat -> entropy) (task_id : string) (f : fs)
  : result bool * fs :=
  match _load es f with
  | (Ok tasks, f') =>
      let initial_count := List.length tasks in
      let tasks := filter (fun task => negb (id_is (PStr task_id) task)) tasks in
      if Nat.ltb (List.length tasks) initial_count
      then (Ok true, _save tasks)
      else (Ok false, f')
  | (Err e, f') => (Err e, f')
  end.

(** [JSONStorage._ensure_file_exists], run by [__init__]: a file that
    does not exist is created holding an empty array. *)
Definition _ensure_file_exists (f : fs) : fs :=
  match f with
  | None => empty_file
  | Some _ => f
  end.

End Session4.

(* ================================================================== *)
(** * [session1_model2/storage.py]: [JSONStorage] over a list of dicts  *)
(* ================================================================== *)

Module Session1.

(** [JSONStorage._load]: the parsed document, or an empty list when the
    file is missing or is text that is not JSON; the file is left as
    it is.  Only [FileNotFoundError] and [JSONDecodeError] are caught:
    the [UnicodeDecodeError] of a file that is not text escapes. *)
Definition _load (f : fs) : result pyval :=
  match f with
  | Some (Json data) => Ok data
  | Some (Corrupt _) => Ok (PList [])
  | Some (Undecodable _) => Err (ValueError LibMsg)
  | None => Ok (PList [])
  end.

(** [JSONStorage._save] *)
Definition _save (data : pyval) : fs := Some (Json data).

(** The loop of [get_all]: an entry whose [from_dict] raises
    [ValueError] is skipped. *)
Fixpoint collect (es : nat -> entropy) (i : nat) (items : list pyval)
  : result (list Task) :=
  match items with
  | [] => Ok []
  | task_data :: r =>
      match from_dict (es i) task_data with
      | Ok task => tasks <- collect es (S i) r ;; Ok (task :: tasks)
      | Err (ValueError _) => collect es (S i) r
      | Err e => Err e
      end
  end.

Definition get_all (es : nat -> entropy) (f : fs) : result (list Task) * fs :=
  match (data <- _load f ;; items <- iter data ;; collect es 0 items) with
  | Ok tasks => (Ok tasks, f)
  | Err e => (Err (IOError (MsgOf "Failed to load tasks: " e)), f)
  end.

(** The loop of [get_by_id]. *)
Fixpoint lookup (es : nat -> entropy) (i : nat) (task_id : string)
  (items : list pyval) : result (option Task) :=
  match items with
  | [] => Ok None
  | task_data :: r =>
      v <- get "id" PNone task_data ;;
      if Py.eq v (PStr task_id) then
        match from_dict (es i) task_data with
        | Ok task => Ok (Some task)
        | Err (ValueError _) => lookup es (S i) task_id r
        | Err e => Err e
        end
      else lookup es (S i) task_id r
  end.

Definition get_by_id (es : nat -> entropy) (task_id : string) (f : fs)
  : result (option Task) * fs :=
  match (data <- _load f ;;
         items <- iter data ;; lookup es 0 task_id items) with
  | Ok r => (Ok r, f)
  | Err e => (Err (IOError (MsgOf "Failed to load task: " e)), f)
  end.

(** The loop of [save]: the index of the first entry whose ['id'] equals
    [task.id]. *)
Fixpoint find_index (task_id : pyval) (i : nat) (items : list pyval)
  : result (option nat) :=
  match items with
  | [] => Ok None
  | existing_task :: r =>
      v <- get "id" PNone existing_task ;;
      if Py.eq v task_id then Ok (Some i) else find_index task_id (S i) r
  end.

Fixpoint set_nth (l : list pyval) (i : nat) (x : pyval) : list pyval :=
  match l, i with
  | [], _ => []
  | _ :: r, O => x :: r
  | y :: r, S i' => y :: set_nth r i' x
  end.

(** [data[i] = x], with [i] an index found by the loop *)
Definition setitem (data : pyval) (i : nat) (x : pyval) : result pyval :=
  match data with
  | PList l => Ok (PList (set_nth l i x))
  | _ => Err TypeError
  end.

(** [data.append(x)] *)
Definition append (data : pyval) (x : pyval) : result pyval :=
  match data with
  | PList l => Ok (PList (l ++ [x]))
  | _ => Err AttributeError
  end.

(** The [try] block of [save]. *)
Definition save_body (task : Task) (f : fs) : result fs :=
  data <- _load f ;;
  let task_dict := to_dict task in
  items <- iter data ;;
  found_index <- find_index (id task) 0 items ;;
  data <-
    (match found_index with
     | Some i => setitem data i task_dict
     | None => append data task_dict
     end) ;;
  Ok (_save data).

Definition save (task : Task) (f : fs) : result unit * fs :=
  match validate task with
  | Err e => (Err e, f)
  | Ok errors =>
      match errors with
      | _ :: _ =>
          (Err (ValueError (Msg ("Invalid task data: " ++ join "; " errors))),
           f)
      | [] =>
          match save_body task f with
          | Ok f' => (Ok tt, f')
          | Err e => (Err (IOError (MsgOf "Failed to save task: " e)), f)
          end
      end
  end.

(** [[task for task in data if task.get('id') != task_id]] *)
Fixpoint without (task_id : string) (items : list pyval)
  : result (list pyval) :=
  match items with
  | [] => Ok []
  | task :: r =>
      v <- get "id" PNone task ;;
      kept <- without task_id r ;;
      Ok (if negb (Py.eq v (PStr task_id)) then task :: kept else kept)
  end.

Definition delete_body (task_id : string) (f : fs) : result (bool * fs) :=
  data <- _load f ;;
  initial_length <- len data ;;
  items <- iter data ;;
  kept <- without task_id items ;;
  if Nat.ltb (List.length kept) initial_length
  then Ok (true, _save (PList kept))
  else Ok (false, f).

Definition delete (task_id : string) (f : fs) : result bool * fs :=
  match delete_body task_id f with
  | Ok (b, f') => (Ok b, f')
  | Err e => (Err (IOError (MsgOf "Failed to delete task: " e)), f)
  end.

(** [JSONStorage._ensure_file_exists], run by [__init__]: a file that
    does not exist is created holding an empty array. *)
Definition _ensure_file_exists (f : fs) : fs :=
  match f with
  | None => empty_file
  | Some _ => f
  end.

End Session1.

(* ================================================================== *)
(** * The two stores as instances of [Storage]                          *)
(* ================================================================== *)

(** The state of a [JSONStorage] object: its file, and the values that
    the calls of [utcnow()] and [uuid4()] still to come will return.  An
    operation draws from the even positions of the stream and leaves
    the odd ones for the operations after it. *)
Record world : Type := mkWorld {
  file : fs;
  rand : nat -> entropy
}.

Definition drawn (es : nat -> entropy) : nat -> entropy :=
  fun i => es (2 * i).
Definition rest (es : nat -> entropy) : nat -> entropy :=
  fun i => es (2 * i + 1).

Definition run {A : Type} (op : (nat -> entropy) -> fs -> result A * fs)
  : M world A :=
  fun w =>
    let (r, f) := op (drawn (rand w)) (file w) in
    (r, mkWorld f (rest (rand w))).

#[export] Instance Session4_Storage : Storage world := {
  get_all := run Session4.get_all;
  get_by_id task_id := run (fun es => Session4.get_by_id es task_id);
  save task := run (fun es => Session4.save es task);
  delete task_id := run (fun es => Session4.delete es task_id)
}.

#[export] Instance Session1_Storage : Storage world := {
  get_all := run Session1.get_all;
  get_by_id task_id := run (fun es => Session1.get_by_id es task_id);
  save task := run (fun _ => Session1.save task);
  delete task_id := run (fun _ => Session1.delete task_id)
}.

(* ================================================================== *)
(** * [session1_model2/task_manager.py]                                 *)
(* ================================================================== *)

Module TaskManager.

Definition status_eqb (a b : TaskStatus) : bool :=
  match a, b with
  | PENDING, PENDING | IN_PROGRESS, IN_PROGRESS | COMPLETED, COMPLETED => true
  | _, _ => false
  end.

Definition priority_eqb (a b : TaskPriority) : bool :=
  match a, b with
  | LOW, LOW | MEDIUM, MEDIUM | HIGH, HIGH => true
  | _, _ => false
  end.

(** [if flt and flt not in values]: a filter that is given, is not the
    empty string, and is not one of [values] *)
Definition bad_filter (flt : option string) (values : list pyval) : bool :=
  match flt with
  | Some s => truthy (PStr s) && negb (in_list (PStr s) values)
  | None => false
  end.

(** [if flt:] *)
Definition given (flt : option string) : option string :=
  match flt with
  | Some s => if truthy (PStr s) then Some s else None
  | None => None
  end.

Section Manager.

Context {S : Type} {storage : Storage S}.

(** [TaskManager.create_task]; [e] holds the id and the timestamp that
    the default factories of [Task] produce. *)
Definition create_task (e : entropy) (title description status priority : pyval)
  : M S Task :=
  fun st =>
    let task_data :=
      PDict [ ("title", title); ("description", description);
              ("status", status); ("priority", priority) ] in
    match validate_task_data task_data false with
    | Err x => (Err x, st)
    | Ok ((_ :: _) as errors) =>
        (Err (ValueError (Msg ("Validation error: " ++ join "; " errors))), st)
    | Ok [] =>
        match (task_status <- TaskStatus_of status ;;
               task_priority <- TaskPriority_of priority ;;
               Ok (task_status, task_priority)) with
        | Err (ValueError m) =>
            (Err (ValueError (MsgOf "Invalid enum value: " (ValueError m))), st)
        | Err x => (Err x, st)
        | Ok (task_status, task_priority) =>
            let task :=
              mkTask title description task_status task_priority
                     (PStr (uuid4 e)) (utcnow e) in
            match save task st with
            | (Ok _, st') => (Ok task, st')
            | (Err x, st') => (Err x, st')
            end
        end
    end.

Definition get_task (task_id : string) : M S (option Task) :=
  get_by_id task_id.

(** [TaskManager.get_all_tasks] *)
Definition get_all_tasks (status_filter priority_filter : option string)
  : M S (list Task) :=
  fun st =>
    if bad_filter status_filter status_values then
      (Err (ValueError
              (Msg ("Invalid status filter: " ++
                    match status_filter with Some s => s | None => "" end))),
       st)
    else if bad_filter priority_filter priority_values then
      (Err (ValueError
              (Msg ("Invalid priority filter: " ++
                    match priority_filter with Some s => s | None => "" end))),
       st)
    else
      match get_all st with
      | (Err x, st') => (Err x, st')
      | (Ok tasks, st') =>
          match
            (tasks <-
               (match given status_filter with
                | Some s =>
                    status_enum <- TaskStatus_of (PStr s) ;;
                    Ok (filter (fun task => status_eqb (status task) status_enum)
                               tasks)
                | None => Ok tasks
                end) ;;
             match given priority_filter with
             | Some p =>
                 priority_enum <- TaskPriority_of (PStr p) ;;
                 Ok (filter
                       (fun task => priority_eqb (priority task) priority_enum)
                       tasks)
             | None => Ok tasks
             end)
          with
          | Ok tasks => (Ok tasks, st')
          | Err x => (Err x, st')
          end
      end.

(** The assignments of [update_task] between the two validations. *)
Definition apply_updates (task : Task) (updates : pyval) : result Task :=
  task <-
    (c <- contains "title" updates ;;
     if c then
       v <- getitem "title" updates ;;
       Ok (mkTask v (description task) (status task) (priority task)
                  (id task) (created_at task))
     else Ok task) ;;
  task <-
    (c <- contains "description" updates ;;
     if c then
       v <- getitem "description" updates ;;
       Ok (mkTask (title task) v (status task) (priority task)
                  (id task) (created_at task))
     else Ok task) ;;
  task <-
    (c <- contains "status" updates ;;
     if c then
       v <- getitem "status" updates ;;
       match TaskStatus_of v with
       | Ok s =>
           Ok (mkTask (title task) (description task) s (priority task)
                      (id task) (created_at task))
       | Err (ValueError _) => Err (ValueError (MsgVal "Invalid status: " v))
       | Err x => Err x
       end
     else Ok task) ;;
  task <-
    (c <- contains "priority" updates ;;
     if c then
       v <- getitem "priority" updates ;;
       match TaskPriority_of v with
       | Ok p =>
           Ok (mkTask (title task) (description task) (status task) p
                      (id task) (created_at task))
       | Err (ValueError _) => Err (ValueError (MsgVal "Invalid priority: " v))
       | Err x => Err x
       end
     else Ok task) ;;
  Ok task.

(** [TaskManager.update_task] *)
Definition update_task (task_id : string) (updates : pyval) : M S Task :=
  fun st =>
    match get_by_id task_id st with
    | (Err x, st') => (Err x, st')
    | (Ok None, st') =>
        (Err (ValueError (Msg ("Task not found: " ++ task_id))), st')
    | (Ok (Some task), st') =>
        match validate_task_data updates true with
        | Err x => (Err x, st')
        | Ok ((_ :: _) as errors) =>
            (Err (ValueError (Msg ("Validation error: " ++ join "; " errors))),
             st')
        | Ok [] =>
            match apply_updates task updates with
            | Err x => (Err x, st')
            | Ok task =>
                match validate task with
                | Err x => (Err x, st')
                | Ok ((_ :: _) as validation_errors) =>
                    (Err (ValueError
                            (Msg ("Validation error: " ++
                                  join "; " validation_errors))), st')
                | Ok [] =>
                    match save task st' with
                    | (Ok _, st'') => (Ok task, st'')
                    | (Err x, st'') => (Err x, st'')
                    end
                end
            end
        end
    end.

Definition delete_task (task_id : string) : M S bool :=
  delete task_id.

Definition get_task_count : M S nat :=
  fun st =>
    match get_all st with
    | (Ok tasks, st') => (Ok (List.length tasks), st')
    | (Err x, st') => (Err x, st')
    end.

Definition get_tasks_by_status (status : string) : M S (list Task) :=
  get_all_tasks (Some status) None.

Definition get_tasks_by_priority (priority : string) : M S (list Task) :=
  get_all_tasks None (Some priority).

End Manager.

End TaskManager.

(* ================================================================== *)
(** * [session1_model1/app.py]: the validator of the SQL variant        *)
(* ================================================================== *)

Module Session1Model1.

(** [validate_task_data(data, partial)] of [session1_model1/app.py];
    its two enums have the values of [TaskStatus] and [TaskPriority]
    above. *)
Definition validate_task_data (data : pyval) (partial : bool)
  : result (list string) :=
  let errors := [] in
  errors <-
    (if negb partial then
       t <- get "title" PNone data ;;
       if negb (truthy t) then
         Ok (errors ++ ["Title is required"])
       else
         t' <- get "title" (PStr "") data ;;
         n <- len t' ;;
         if Nat.ltb 200 n then
           Ok (errors ++ ["Title must be less than 200 characters"])
         else Ok errors
     else Ok errors) ;;
  errors <-
    (c <- contains "status" data ;;
     if c then
       v <- getitem "status" data ;;
       if negb (in_list v status_values) then
         Ok (errors ++
             ["Invalid status. Must be: pending, in-progress, or completed"])
       else Ok errors
     else Ok errors) ;;
  errors <-
    (c <- contains "priority" data ;;
     if c then
       v <- getitem "priority" data ;;
       if negb (in_list v priority_values) then
         Ok (errors ++ ["Invalid priority. Must be: low, medium, or high"])
       else Ok errors
     else Ok errors) ;;
  Ok errors.

End Session1Model1.

(* ================================================================== *)
(** * Vocabulary of the specification                                   *)
(* ================================================================== *)

Module Spec.

(** [c * n], as in ['x' * 1001] *)
Fixpoint repeat_char (c : ascii) (n : nat) : string :=
  match n with
  | O => ""
  | S n' => String c (repeat_char c n')
  end.

(** The value of field [k] of a field map, [None] when it is absent. *)
Definition field (k : string) (d : list (string * pyval)) : pyval :=
  match assoc k d with
  | Some v => v
  | None => PNone
  end.

(** Field [k] is missing from the map or holds an empty/falsy value. *)
Definition absent_or_falsy (k : string) (d : list (string * pyval)) : bool :=
  match assoc k d with
  | Some v => negb (truthy v)
  | None => true
  end.

(** [v] has a length, and it exceeds [n]. *)
Definition longer_than (n : nat) (v : pyval) : bool :=
  match len v with
  | Ok k => Nat.ltb n k
  | Err _ => false
  end.

(** A text field as the data model has it: a string, or nothing. *)
Definition text_or_none (v : pyval) : bool :=
  match v with
  | PNone | PStr _ => true
  | _ => false
  end.

(** ** What [from_dict] rejects *)

(** Field [k] holds a non-empty value that is not in [values]. *)
Definition bad_enum (k : string) (values : list pyval)
  (d : list (string * pyval)) : Prop :=
  exists v, assoc k d = Some v /\ truthy v = true /\ in_list v values = false.

(** ['created_at'] holds a non-empty string that does not parse. *)
Definition bad_timestamp (d : list (string * pyval)) : Prop :=
  exists s, assoc "created_at" d = Some (PStr s) /\ s <> "" /\
            fromisoformat s = None.

(** ['created_at'] holds a non-empty value that is not a string. *)
Definition nontext_timestamp (d : list (string * pyval)) : Prop :=
  exists v, assoc "created_at" d = Some v /\ truthy v = true /\
            forall s, v <> PStr s.

(** The three guarded conversions of [from_dict], on a dict. *)
Definition status_of_record (d : list (string * pyval)) : result TaskStatus :=
  if absent_or_falsy "status" d then Ok PENDING
  else TaskStatus_of (field "status" d).

Definition priority_of_record (d : list (string * pyval))
  : result TaskPriority :=
  if absent_or_falsy "priority" d then Ok MEDIUM
  else TaskPriority_of (field "priority" d).

Definition created_at_of_record (e : entropy) (d : list (string * pyval))
  : result datetime :=
  if absent_or_falsy "created_at" d then Ok (utcnow e)
  else fromisoformat_value (field "created_at" d).

(** ** The five validation rules, each on its own *)

Definition title_required (d : list (string * pyval)) : list string :=
  if truthy (field "title" d) then [] else ["Title is required"].

Definition title_length (d : list (string * pyval)) : list string :=
  if longer_than 200 (field "title" d)
  then ["Title must be less than 200 characters"] else [].

Definition status_member (d : list (string * pyval)) : list string :=
  match assoc "status" d with
  | Some v =>
      if in_list v status_values then []
      else ["Invalid status. Must be: pending, in-progress, or completed"]
  | None => []
  end.

Definition priority_member (d : list (string * pyval)) : list string :=
  match assoc "priority" d with
  | Some v =>
      if in_list v priority_values then []
      else ["Invalid priority. Must be: low, medium, or high"]
  | None => []
  end.

Definition description_length (d : list (string * pyval)) : list string :=
  if longer_than 1000 (field "description" d)
  then ["Description must be less than 1000 characters"] else [].

(** Every rule contributes its message exactly when it is violated. *)
Definition violations (d : list (string * pyval)) : list string :=
  title_required d ++ title_length d ++ status_member d ++
  priority_member d ++ description_length d.

(** The same for the rules of [Task.validate]. *)
Definition task_violations (t : Task) : list string :=
  (if truthy (title t) then [] else ["Title is required"]) ++
  (if longer_than 200 (title t)
   then ["Title must be less than 200 characters"] else []) ++
  (if longer_than 1000 (description t)
   then ["Description must be less than 1000 characters"] else []).

(** ** Filters of [list] *)

(** A filter value that is supplied and is not in its closed set. *)
Definition not_member (flt : option string) (values : list pyval) : bool :=
  match flt with
  | Some s => negb (in_list (PStr s) values)
  | None => false
  end.

(** The filter that takes effect: an empty string counts as absent. *)
Definition effective (flt : option string) : option string :=
  match flt with
  | Some s => if String.eqb s "" then None else Some s
  | None => None
  end.

Definition matches_status (flt : option string) (t : Task) : bool :=
  match flt with
  | Some s => String.eqb (status_value (status t)) s
  | None => true
  end.

Definition matches_priority (flt : option string) (t : Task) : bool :=
  match flt with
  | Some p => String.eqb (priority_value (priority t)) p
  | None => true
  end.

(** ** The stored collection *)


(** The entries of the array in the file. *)
Definition records (f : fs) : list pyval :=
  match f with
  | Some (Json (PList l)) => l
  | _ => []
  end.

(** Entry [r] is a record whose ['id'] equals [v]. *)
Definition has_id (v : pyval) (r : pyval) : bool :=
  match r with
  | PDict d => Py.eq (field "id" d) v
  | _ => false
  end.

(** Entry [r] is a record whose ['id'] differs from [v]. *)
Definition other_record (v : pyval) (r : pyval) : bool :=
  match r with
  | PDict d => negb (Py.eq (field "id" d) v)
  | _ => false
  end.

(** Task [t] has an id that differs from [v]. *)
Definition other_task (v : pyval) (t : Task) : bool := negb (id_is v t).

(** The timestamp of [t] is one the library can build. *)
Definition well_formed (t : Task) : Prop := datetime_ok (created_at t) = true.

(** How many records of the file carry the id [v]. *)
Definition count_id (v : pyval) (f : fs) : nat :=
  List.length (filter (has_id v) (records f)).

(** ** Sample data *)

Definition noon : datetime := mkDatetime 2024 1 1 12 0 0 0.
Definition sample_entropy : entropy := mkEntropy noon "generated-id".
Definition sample_task : Task :=
  mkTask (PStr "A") PNone PENDING LOW (PStr "task-1") noon.
Definition untitled_task : Task :=
  mkTask (PStr "") PNone PENDING MEDIUM (PStr "task-2") noon.
Definition sample_world : world := mkWorld None (fun _ => sample_entropy).

(** The world after [sample_task] was saved to a new store. *)
Definition stored_world : world :=
  mkWorld (Some (Json (PList [to_dict sample_task])))
          (fun _ => sample_entropy).

(** ** Sequences of calls *)

(** [save] called on each task of [ts] in turn, stopping at the first
    call that raises. *)
Fixpoint save_each (ts : list Task) (f : fs) : result unit * fs :=
  match ts with
  | [] => (Ok tt, f)
  | t :: r =>
      match Session1.save t f with
      | (Ok _, f1) => save_each r f1
      | (Err e, f1) => (Err e, f1)
      end
  end.

(** The same for the list-of-Task store; the [k]-th call draws from
    the stream [ess k]. *)
Fixpoint save_each4 (ess : nat -> nat -> entropy) (k : nat) (ts : list Task)
  (f : fs) : result unit * fs :=
  match ts with
  | [] => (Ok tt, f)
  | t :: r =>
      match Session4.save (ess k) t f with
      | (Ok _, f1) => save_each4 ess (S k) r f1
      | (Err e, f1) => (Err e, f1)
      end
  end.

(** The id of [t] is a string, as its annotation says. *)
Definition string_id (t : Task) : Prop := exists i, id t = PStr i.

(** A record that [from_dict] rejects as corrupt, whatever the clock. *)
Definition corrupt_record (r : pyval) : Prop :=
  forall e, exists m, from_dict e r = Err (ValueError m).

(** The classes of the exceptions that leave [from_dict]. *)
Definition load_error (x : exn) : Prop :=
  (exists m, x = ValueError m) \/ x = TypeError \/ x = AttributeError.

(** A record with a status outside the closed set. *)
Definition bogus_record : pyval :=
  PDict [("id", PStr "task-9"); ("title", PStr "B"); ("status", PStr "bogus")].

Definition second_task : Task :=
  mkTask (PStr "B") PNone COMPLETED HIGH (PStr "task-2") noon.




End Spec.
Import Spec.

(* ================================================================== *)
(** * Properties of the [datetime] model                                *)
(* ================================================================== *)

Section DatetimeFacts.

Local Open Scope Z_scope.

Lemma char_digit_digit_char (d : Z) :
  0 <= d <= 9 -> char_digit (digit_char d) = Some d.
Proof.
  intros Hd.
  assert (Hcases : d = 0 \/ d = 1 \/ d = 2 \/ d = 3 \/ d = 4 \/
                   d = 5 \/ d = 6 \/ d = 7 \/ d = 8 \/ d = 9) by lia.
  repeat (destruct Hcases as [-> | Hcases]; [reflexivity |]).
  subst d; reflexivity.
Qed.

Lemma take_digits_zpad (k : nat) :
  forall (n acc : Z) (tail : string),
    0 <= n < 10 ^ Z.of_nat k ->
    take_digits k acc (zpad k n ++ tail) =
    Some (acc * 10 ^ Z.of_nat k + n, tail).
Proof.
  induction k as [| k IH]; intros n acc tail Hn.
  - cbn in *. f_equal. f_equal. lia.
  - assert (Hpow : 10 ^ Z.of_nat (S k) = 10 * 10 ^ Z.of_nat k).
    { rewrite Nat2Z.inj_succ, Z.pow_succ_r by lia. reflexivity. }
    assert (Hpos : 0 < 10 ^ Z.of_nat k) by (apply Z.pow_pos_nonneg; lia).
    cbn [zpad take_digits append].
    rewrite char_digit_digit_char.
    + rewrite IH by (apply Z.mod_pos_bound; lia).
      f_equal. f_equal. rewrite Hpow.
      pose proof (Z.div_mod n (10 ^ Z.of_nat k)) as Hdm. lia.
    + split.
      * apply Z.div_pos; lia.
      * assert (n / 10 ^ Z.of_nat k < 10); [| lia].
        apply Z.div_lt_upper_bound; lia.
Qed.

Lemma length_zpad (k : nat) (n : Z) : String.length (zpad k n) = k.
Proof.
  revert n; induction k as [| k IH]; intros n; cbn [zpad String.length].
  - reflexivity.
  - now rewrite IH.
Qed.

Lemma append_empty_r (s : string) : (s ++ "")%string = s.
Proof.
  induction s as [| c s IH]; cbn; [reflexivity | now rewrite IH].
Qed.

Lemma take_digits_zpad_all (k : nat) (n : Z) :
  0 <= n < 10 ^ Z.of_nat k ->
  take_digits k 0 (zpad k n) = Some (n, ""%string).
Proof.
  intros Hn.
  rewrite <- (append_empty_r (zpad k n)) at 1.
  now rewrite take_digits_zpad by assumption.
Qed.

Lemma expect_cons (c : ascii) (s : string) : expect c (String c s) = Some s.
Proof. cbn [expect]. now rewrite Ascii.eqb_refl. Qed.

Lemma zpad_2_cons (n : Z) (tail : string) :
  exists c1 c2, (zpad 2 n ++ tail)%string = String c1 (String c2 tail).
Proof. cbn [zpad append]. eauto. Qed.

Lemma parse_fraction_iso (us : Z) :
  0 <= us <= 999999 ->
  parse_fraction (if Z.eqb us 0 then "" else "." ++ zpad 6 us)%string = Some us.
Proof.
  intros Hus. destruct (Z.eqb_spec us 0) as [-> | Hnz].
  - reflexivity.
  - change ("." ++ zpad 6 us)%string with (String "."%char (zpad 6 us)).
    cbn [parse_fraction]. rewrite Ascii.eqb_refl, length_zpad.
    rewrite take_digits_zpad_all; [reflexivity |].
    change (10 ^ Z.of_nat 6) with 1000000. lia.
Qed.

Lemma parse_time_iso (h mi sec us : Z) :
  0 <= h <= 23 -> 0 <= mi <= 59 -> 0 <= sec <= 59 -> 0 <= us <= 999999 ->
  parse_time
    (zpad 2 h ++ ":" ++ zpad 2 mi ++ ":" ++ zpad 2 sec ++
     (if Z.eqb us 0 then "" else "." ++ zpad 6 us))%string
  = Some (h, mi, sec, us).
Proof.
  intros Hh Hmi Hsec Hus.
  assert (H100 : 10 ^ Z.of_nat 2 = 100) by reflexivity.
  unfold parse_time.
  rewrite take_digits_zpad by (rewrite H100; lia).
  cbn [append].
  rewrite expect_cons.
  rewrite take_digits_zpad by (rewrite H100; lia).
  rewrite expect_cons.
  rewrite take_digits_zpad by (rewrite H100; lia).
  rewrite parse_fraction_iso by assumption.
  repeat f_equal; lia.
Qed.

Lemma datetime_ok_bounds (d : datetime) :
  datetime_ok d = true ->
  1 <= year d <= 9999 /\ 1 <= month d <= 12 /\ 1 <= day d <= 31 /\
  0 <= hour d <= 23 /\ 0 <= minute d <= 59 /\ 0 <= second d <= 59 /\
  0 <= microsecond d <= 999999.
Proof.
  unfold datetime_ok, in_range. intros H.
  repeat (apply andb_prop in H; destruct H as [H ?]).
  assert (Hdim : days_in_month (year d) (month d) <= 31).
  { unfold days_in_month.
    repeat match goal with |- context [if ?b then _ else _] => destruct b end;
      lia. }
  lia.
Qed.

(** [fromisoformat] inverts [isoformat] on every [datetime]. *)
Lemma fromisoformat_isoformat (d : datetime) :
  datetime_ok d = true -> fromisoformat (isoformat d) = Some d.
Proof.
  intros Hok. pose proof (datetime_ok_bounds d Hok) as Hb.
  destruct Hb as (Hy & Hm & Hd & Hh & Hmi & Hs & Hus).
  assert (H100 : 10 ^ Z.of_nat 2 = 100) by reflexivity.
  assert (H10000 : 10 ^ Z.of_nat 4 = 10000) by reflexivity.
  unfold fromisoformat, isoformat.
  rewrite take_digits_zpad by (rewrite H10000; lia).
  cbn [append].
  rewrite expect_cons.
  rewrite take_digits_zpad by (rewrite H100; lia).
  rewrite expect_cons.
  rewrite take_digits_zpad by (rewrite H100; lia).
  pose proof (parse_time_iso (hour d) (minute d) (second d) (microsecond d)
                Hh Hmi Hs Hus) as Hpt.
  cbn [append] in Hpt.
  match goal with
  | |- context [ (zpad 2 (hour d) ++ ?t)%string ] =>
      destruct (zpad_2_cons (hour d) t) as (c1 & c2 & Hcons)
  end.
  rewrite Hcons in *. cbv iota. rewrite Hpt.
  replace (0 * 10 ^ Z.of_nat 4 + year d) with (year d) by lia.
  replace (0 * 10 ^ Z.of_nat 2 + month d) with (month d) by lia.
  replace (0 * 10 ^ Z.of_nat 2 + day d) with (day d) by lia.
  destruct d; cbn in *. rewrite Hok. reflexivity.
Qed.

(** A timestamp that parses is a well-formed [datetime]. *)
Lemma fromisoformat_ok (s : string) (d : datetime) :
  fromisoformat s = Some d -> datetime_ok d = true.
Proof.
  unfold fromisoformat. intros H.
  repeat match type of H with
         | match ?x with _ => _ end = _ => destruct x eqn:?; try discriminate
         | (let (_, _) := ?x in _) = _ => destruct x
         | (if ?b then _ else _) = _ => destruct b eqn:?; try discriminate
         end.
  all: inversion H; subst; assumption.
Qed.

End DatetimeFacts.

(* ================================================================== *)
(** * Properties of [models.py]                                         *)
(* ================================================================== *)

Section ModelFacts.

Lemma TaskStatus_of_value (s : TaskStatus) :
  TaskStatus_of (PStr (status_value s)) = Ok s.
Proof. destruct s; reflexivity. Qed.

Lemma TaskPriority_of_value (p : TaskPriority) :
  TaskPriority_of (PStr (priority_value p)) = Ok p.
Proof. destruct p; reflexivity. Qed.

Lemma isoformat_truthy (d : datetime) : truthy (PStr (isoformat d)) = true.
Proof. unfold isoformat. cbn [zpad append truthy String.eqb]. reflexivity. Qed.

(** [from_dict] inverts [to_dict], whatever the task holds. *)
Lemma from_dict_to_dict (e : entropy) (t : Task) :
  datetime_ok (created_at t) = true -> from_dict e (to_dict t) = Ok t.
Proof.
  intros Hok. destruct t as [ti de st pr i ca]; cbn [created_at] in Hok.
  unfold from_dict, from_dict_body, to_dict, present_and_truthy.
  cbn [contains getitem get assoc String.eqb Ascii.eqb Bool.eqb bind
       Models.title Models.description Models.status Models.priority
       Models.id Models.created_at].
  assert (Hst : truthy (PStr (status_value st)) = true) by (destruct st; reflexivity).
  assert (Hpr : truthy (PStr (priority_value pr)) = true) by (destruct pr; reflexivity).
  rewrite Hst, Hpr, isoformat_truthy.
  cbn [bind]. rewrite TaskStatus_of_value, TaskPriority_of_value.
  cbn [bind fromisoformat_value]. rewrite fromisoformat_isoformat by assumption.
  reflexivity.
Qed.

(** C3 -- round trip: for every valid task [t] (its [validate()]
    returns the empty list), [from_dict(to_dict(t))] succeeds and yields
    a task equal to [t] in every field -- id, title, description,
    status, priority and created_at; the ISO-8601 text of the timestamp
    parses back to the same instant.  [datetime_ok] is the invariant of
    the library's [datetime] values. *)
Theorem roundtrip_valid_task (e : entropy) (t : Task) :
  validate t = Ok [] ->
  datetime_ok (created_at t) = true ->
  from_dict e (to_dict t) = Ok t.
Proof. intros _ Hok. now apply from_dict_to_dict. Qed.

Lemma roundtrip_valid_task_witness :
  from_dict sample_entropy (to_dict sample_task) = Ok sample_task.
Proof. apply roundtrip_valid_task; reflexivity. Defined.

Lemma TaskStatus_of_member (v : pyval) :
  in_list v status_values = true <-> exists s, TaskStatus_of v = Ok s.
Proof.
  unfold in_list, status_values, TaskStatus_of. cbn [map existsb status_value].
  destruct v; cbn [Py.eq];
    try (split; [discriminate | intros [? ?]; discriminate]).
  rewrite !(String.eqb_sym _ s).
  destruct (String.eqb s "pending"); [split; eauto |].
  destruct (String.eqb s "in-progress"); [split; eauto |].
  destruct (String.eqb s "completed"); [split; eauto |].
  split; [discriminate | intros [? ?]; discriminate].
Qed.

Lemma TaskPriority_of_member (v : pyval) :
  in_list v priority_values = true <-> exists p, TaskPriority_of v = Ok p.
Proof.
  unfold in_list, priority_values, TaskPriority_of.
  cbn [map existsb priority_value].
  destruct v; cbn [Py.eq];
    try (split; [discriminate | intros [? ?]; discriminate]).
  rewrite !(String.eqb_sym _ s).
  destruct (String.eqb s "low"); [split; eauto |].
  destruct (String.eqb s "medium"); [split; eauto |].
  destruct (String.eqb s "high"); [split; eauto |].
  split; [discriminate | intros [? ?]; discriminate].
Qed.

Lemma TaskStatus_of_err (v : pyval) (x : exn) :
  TaskStatus_of v = Err x ->
  x = ValueError LibMsg /\ in_list v status_values = false.
Proof.
  intros H. split.
  - unfold TaskStatus_of in H.
    destruct v; try (now inversion H).
    repeat match type of H with
           | (if ?b then _ else _) = _ => destruct b; try discriminate
           end.
    now inversion H.
  - destruct (in_list v status_values) eqn:Hin; [| reflexivity].
    apply TaskStatus_of_member in Hin. destruct Hin as [s' Hs]. congruence.
Qed.

Lemma TaskPriority_of_err (v : pyval) (x : exn) :
  TaskPriority_of v = Err x ->
  x = ValueError LibMsg /\ in_list v priority_values = false.
Proof.
  intros H. split.
  - unfold TaskPriority_of in H.
    destruct v; try (now inversion H).
    repeat match type of H with
           | (if ?b then _ else _) = _ => destruct b; try discriminate
           end.
    now inversion H.
  - destruct (in_list v priority_values) eqn:Hin; [| reflexivity].
    apply TaskPriority_of_member in Hin. destruct Hin as [s' Hs]. congruence.
Qed.

Lemma guarded_field {A : Type} (k : string) (d : list (string * pyval))
  (conv : pyval -> result A) (default : A) :
  (b <- present_and_truthy k (PDict d) ;;
   if b then (v <- getitem k (PDict d) ;; conv v) else Ok default)
  = if absent_or_falsy k d then Ok default else conv (field k d).
Proof.
  unfold present_and_truthy, absent_or_falsy, field.
  cbn [contains getitem bind].
  destruct (assoc k d) as [v |]; cbn [bind]; [| reflexivity].
  destruct (truthy v); reflexivity.
Qed.

Lemma from_dict_body_dict (e : entropy) (d : list (string * pyval)) :
  from_dict_body e (PDict d) =
  (status <- status_of_record d ;;
   priority <- priority_of_record d ;;
   created_at <- created_at_of_record e d ;;
   Ok (mkTask (match assoc "title" d with Some v => v | None => PStr "" end)
              (field "description" d) status priority
              (match assoc "id" d with Some v => v | None => PStr (uuid4 e) end)
              created_at)).
Proof.
  unfold from_dict_body. rewrite !guarded_field. reflexivity.
Qed.

Lemma status_of_record_err (d : list (string * pyval)) (x : exn) :
  status_of_record d = Err x ->
  x = ValueError LibMsg /\ bad_enum "status" status_values d.
Proof.
  unfold status_of_record, absent_or_falsy, field, bad_enum.
  destruct (assoc "status" d) as [v |]; [| discriminate].
  destruct (truthy v) eqn:Ht; cbn [negb]; [| discriminate].
  intros H. apply TaskStatus_of_err in H. destruct H as [-> Hin]. eauto.
Qed.

Lemma priority_of_record_err (d : list (string * pyval)) (x : exn) :
  priority_of_record d = Err x ->
  x = ValueError LibMsg /\ bad_enum "priority" priority_values d.
Proof.
  unfold priority_of_record, absent_or_falsy, field, bad_enum.
  destruct (assoc "priority" d) as [v |]; [| discriminate].
  destruct (truthy v) eqn:Ht; cbn [negb]; [| discriminate].
  intros H. apply TaskPriority_of_err in H. destruct H as [-> Hin]. eauto.
Qed.

Lemma created_at_of_record_err (e : entropy) (d : list (string * pyval))
  (x : exn) :
  created_at_of_record e d = Err x ->
  x = ValueError LibMsg /\ bad_timestamp d \/
  x = TypeError /\ nontext_timestamp d.
Proof.
  unfold created_at_of_record, absent_or_falsy, field, bad_timestamp,
    nontext_timestamp.
  destruct (assoc "created_at" d) as [v |]; [| discriminate].
  destruct (truthy v) eqn:Ht; cbn [negb]; [| discriminate].
  destruct v; cbn [fromisoformat_value]; intros H;
    try (inversion H; subst; right; split; [reflexivity |];
         eexists; repeat split; eauto; discriminate).
  destruct (fromisoformat s) eqn:Hp; [discriminate |].
  inversion H; subst. left. split; [reflexivity |].
  exists s. repeat split; auto.
  intros ->. discriminate.
Qed.

(** C9 -- defaults of [from_dict]: for every record map [d], a
    [status], [priority] or [created_at] key that is missing or maps to
    an empty/falsy value does not make [from_dict] fail: the field
    silently defaults to pending, to medium, and to the current time,
    and a missing title defaults to the empty string; with all three
    keys so, the call succeeds.  [from_dict] raises its data-corruption
    [ValueError] only for a non-empty invalid enum value or a non-empty
    timestamp string that does not parse; the one other failure is the
    [TypeError] of a non-empty timestamp that is not a string. *)
Theorem from_dict_defaults (e : entropy) (d : list (string * pyval)) :
  (absent_or_falsy "status" d = true ->
   absent_or_falsy "priority" d = true ->
   absent_or_falsy "created_at" d = true ->
   from_dict e (PDict d) =
   Ok (mkTask (match assoc "title" d with Some v => v | None => PStr "" end)
              (field "description" d) PENDING MEDIUM
              (match assoc "id" d with Some v => v | None => PStr (uuid4 e) end)
              (utcnow e)))
  /\ (forall t, from_dict e (PDict d) = Ok t ->
        (absent_or_falsy "status" d = true -> status t = PENDING) /\
        (absent_or_falsy "priority" d = true -> priority t = MEDIUM) /\
        (absent_or_falsy "created_at" d = true -> created_at t = utcnow e) /\
        (assoc "title" d = None -> title t = PStr ""))
  /\ (forall x, from_dict e (PDict d) = Err x ->
        (exists m, x = ValueError m) /\
        (bad_enum "status" status_values d \/
         bad_enum "priority" priority_values d \/ bad_timestamp d)
        \/ x = TypeError /\ nontext_timestamp d).
Proof.
  unfold from_dict. rewrite from_dict_body_dict.
  split; [| split].
  - intros Hs Hp Hc.
    unfold status_of_record, priority_of_record, created_at_of_record.
    rewrite Hs, Hp, Hc. reflexivity.
  - intros t Ht.
    destruct (status_of_record d) as [st | x1] eqn:Hst;
      [| cbn [bind] in Ht; destruct x1; discriminate].
    destruct (priority_of_record d) as [pr | x2] eqn:Hpr;
      [| cbn [bind] in Ht; destruct x2; discriminate].
    destruct (created_at_of_record e d) as [ca | x3] eqn:Hca;
      [| cbn [bind] in Ht; destruct x3; discriminate].
    cbn [bind] in Ht. inversion Ht; subst; clear Ht.
    cbn [Models.status Models.priority Models.created_at Models.title].
    unfold status_of_record in Hst. unfold priority_of_record in Hpr.
    unfold created_at_of_record in Hca.
    repeat split; intros Hk; rewrite ?Hk in *; congruence.
  - intros x Hx.
    destruct (status_of_record d) as [st | x1] eqn:Hst; cbn [bind] in Hx.
    2: { apply status_of_record_err in Hst. destruct Hst as [-> Hbad].
         inversion Hx; subst. left. split; eauto. }
    destruct (priority_of_record d) as [pr | x2] eqn:Hpr; cbn [bind] in Hx.
    2: { apply priority_of_record_err in Hpr. destruct Hpr as [-> Hbad].
         inversion Hx; subst. left. split; eauto. }
    destruct (created_at_of_record e d) as [ca | x3] eqn:Hca;
      cbn [bind] in Hx; [discriminate |].
    apply created_at_of_record_err in Hca.
    destruct Hca as [[-> Hbad] | [-> Hbad]]; inversion Hx; subst.
    + left. split; eauto.
    + right. split; auto.
Qed.

Lemma from_dict_defaults_witness :
  from_dict sample_entropy (PDict [("title", PStr "A"); ("status", PStr "")]) =
  Ok (mkTask (PStr "A") PNone PENDING MEDIUM (PStr "generated-id") noon).
Proof.
  apply (proj1 (from_dict_defaults sample_entropy
                  [("title", PStr "A"); ("status", PStr "")]));
    reflexivity.
Defined.

End ModelFacts.

(* ================================================================== *)
(** * Validation                                                        *)
(* ================================================================== *)

Section ValidationFacts.

Lemma falsy_len (v : pyval) (n : nat) :
  truthy v = false -> len v = Ok n -> n = 0.
Proof.
  destruct v as [| b | z | s | l | d]; cbn [truthy len]; intros Ht Hl;
    try discriminate; inversion Hl; subst; clear Hl.
  - apply negb_false_iff, String.eqb_eq in Ht. now subst.
  - now destruct l.
  - now destruct d.
Qed.

Lemma bind_Ok_inv {A B : Type} (r : result A) (k : A -> result B) (b : B) :
  bind r k = Ok b -> exists a, r = Ok a /\ k a = Ok b.
Proof. destruct r as [a | x]; cbn [bind]; [eauto | discriminate]. Qed.

Lemma longer_than_falsy (n : nat) (v : pyval) :
  truthy v = false -> longer_than n v = false.
Proof.
  intros Ht. unfold longer_than. destruct (len v) as [k |] eqn:Hl; auto.
  now rewrite (falsy_len v k Ht Hl).
Qed.

(** The block of a rule that tests a field when it is present. *)
Lemma member_step (k : string) (values : list pyval) (message : string)
  (d : list (string * pyval)) (errors errors' : list string) :
  (c <- contains k (PDict d) ;;
   if c then
     v <- getitem k (PDict d) ;;
     if negb (in_list v values) then Ok (errors ++ [message])
     else Ok errors
   else Ok errors) = Ok errors' ->
  errors' = errors ++
            match assoc k d with
            | Some v => if in_list v values then [] else [message]
            | None => []
            end.
Proof.
  cbn [contains getitem bind].
  destruct (assoc k d) as [v |]; cbn [bind].
  - destruct (in_list v values); cbn [negb]; intros H; inversion H;
      now rewrite ?app_nil_r.
  - intros H; inversion H; now rewrite app_nil_r.
Qed.

(** The block of the description rule. *)
Lemma description_step (d : list (string * pyval))
  (errors errors' : list string) :
  (c <- contains "description" (PDict d) ;;
   if c then
     v <- getitem "description" (PDict d) ;;
     match v with
     | PNone => Ok errors
     | _ =>
         n <- len v ;;
         if Nat.ltb 1000 n then
           Ok (errors ++ ["Description must be less than 1000 characters"])
         else Ok errors
     end
   else Ok errors) = Ok errors' ->
  errors' = errors ++ description_length d.
Proof.
  unfold description_length, longer_than, field.
  cbn [contains getitem bind].
  destruct (assoc "description" d) as [v |]; cbn [bind].
  - destruct v; cbn [len bind]; intros H; try discriminate;
      repeat match type of H with
             | context [Nat.ltb ?a ?b] => destruct (Nat.ltb a b)
             end;
      inversion H; now rewrite ?app_nil_r.
  - intros H; inversion H; now rewrite app_nil_r.
Qed.

(** The block of the two title rules, taken in full mode. *)
Lemma title_step (d : list (string * pyval)) (errors' : list string) :
  (t <- get "title" PNone (PDict d) ;;
   if negb (truthy t) then Ok ([] ++ ["Title is required"])
   else
     t' <- get "title" (PStr "") (PDict d) ;;
     n <- len t' ;;
     if Nat.ltb 200 n then
       Ok ([] ++ ["Title must be less than 200 characters"])
     else Ok []) = Ok errors' ->
  errors' = title_required d ++ title_length d.
Proof.
  unfold title_required, title_length, field. cbn [get bind].
  destruct (assoc "title" d) as [t |].
  - destruct (truthy t) eqn:Ht; cbn [negb].
    + unfold longer_than. destruct (len t) as [n |]; cbn [bind];
        [| discriminate].
      destruct (Nat.ltb 200 n); intros H; inversion H; reflexivity.
    + rewrite (longer_than_falsy 200 t Ht).
      intros H; inversion H; reflexivity.
  - cbn [truthy negb longer_than len]. intros H; inversion H; reflexivity.
Qed.

(** In full mode the list that [validate_task_data] returns is the
    list of the violated rules. *)
Lemma validate_task_data_full (d : list (string * pyval)) (errs : list string) :
  validate_task_data (PDict d) false = Ok errs -> errs = violations d.
Proof.
  unfold validate_task_data. cbn [negb]. intros H.
  apply bind_Ok_inv in H. destruct H as (e1 & H1 & H).
  apply bind_Ok_inv in H. destruct H as (e2 & H2 & H).
  apply bind_Ok_inv in H. destruct H as (e3 & H3 & H).
  apply bind_Ok_inv in H. destruct H as (e4 & H4 & H).
  inversion H; subst errs; clear H.
  apply title_step in H1. apply member_step in H2. apply member_step in H3.
  apply description_step in H4. subst.
  unfold violations, status_member, priority_member.
  now rewrite <- !app_assoc.
Qed.

(** With text fields as the data model has them, it returns. *)
Lemma validate_task_data_total (d : list (string * pyval)) :
  text_or_none (field "title" d) = true ->
  text_or_none (field "description" d) = true ->
  validate_task_data (PDict d) false = Ok (violations d).
Proof.
  intros Ht Hd.
  destruct (validate_task_data (PDict d) false) as [errs | x] eqn:Hv.
  - now rewrite (validate_task_data_full d errs Hv).
  - exfalso. revert Ht Hd Hv.
    unfold validate_task_data, text_or_none, field.
    cbn [get contains getitem bind negb].
    destruct (assoc "title" d) as [[| ? | ? | ti | ? | ?] |];
      intros Ht; try discriminate; clear Ht;
      (destruct (assoc "description" d) as [[| ? | ? | de | ? | ?] |];
       intros Hd; try discriminate; clear Hd);
      cbn [truthy negb bind len];
      repeat match goal with
             | |- context [match assoc ?k d with _ => _ end] =>
                 destruct (assoc k d)
             | |- context [if ?b then _ else _] => destruct b
             | _ => progress cbn [bind]
             end;
      discriminate.
Qed.

(** The same for [Task.validate]. *)
Lemma validate_full (t : Task) (errs : list string) :
  validate t = Ok errs -> errs = task_violations t.
Proof.
  unfold validate, task_violations.
  destruct t as [ti de st pr i ca].
  cbn [Models.title Models.description]. intros H.
  apply bind_Ok_inv in H. destruct H as (e1 & H1 & H).
  apply bind_Ok_inv in H. destruct H as (e2 & H2 & H).
  inversion H; subst errs; clear H.
  assert (E1 : e1 = (if truthy ti then [] else ["Title is required"]) ++
                    (if longer_than 200 ti
                     then ["Title must be less than 200 characters"] else [])).
  { destruct (truthy ti) eqn:Ht; cbn [negb] in H1.
    - unfold longer_than. destruct (len ti) as [n |]; cbn [bind] in H1;
        [| discriminate].
      destruct (Nat.ltb 200 n); inversion H1; reflexivity.
    - rewrite (longer_than_falsy 200 ti Ht). inversion H1; reflexivity. }
  assert (E2 : e2 = e1 ++
                    (if longer_than 1000 de
                     then ["Description must be less than 1000 characters"]
                     else [])).
  { unfold longer_than.
    destruct de; cbn [len bind] in *; try discriminate;
      repeat match type of H2 with
             | context [Nat.ltb ?a ?b] => destruct (Nat.ltb a b)
             end;
      inversion H2; now rewrite ?app_nil_r. }
  subst. now rewrite <- !app_assoc.
Qed.

(** C7 -- validation aggregates: the rules are evaluated one by one,
    none hides another: for every field map the list returned is the
    list of the violated rules, one message per rule, in the order
    title, status, priority, description (and it is returned whenever
    title and description are text or absent); the same holds for
    [Task.validate].  In particular, creating a task with an empty
    title and a description of 1001 characters fails with the
    validation error that lists both the title-required and the
    description-length violations, and the store is not touched. *)
Theorem validation_reports_every_violation :
  (forall d errs,
     validate_task_data (PDict d) false = Ok errs -> errs = violations d) /\
  (forall d,
     text_or_none (field "title" d) = true ->
     text_or_none (field "description" d) = true ->
     validate_task_data (PDict d) false = Ok (violations d)) /\
  (forall t errs, validate t = Ok errs -> errs = task_violations t) /\
  (forall d errs,
     validate_task_data (PDict d) false = Ok errs ->
     truthy (field "title" d) = false ->
     longer_than 1000 (field "description" d) = true ->
     In "Title is required" errs /\
     In "Description must be less than 1000 characters" errs) /\
  (forall (S : Type) (storage : Storage S) (e : entropy) (st : S),
     TaskManager.create_task e (PStr "") (PStr (repeat_char "x" 1001))
       (PStr "pending") (PStr "medium") st =
     (Err (ValueError (Msg
        "Validation error: Title is required; Description must be less than 1000 characters")),
      st)).
Proof.
  split; [exact validate_task_data_full |].
  split; [exact validate_task_data_total |].
  split; [exact validate_full |].
  split.
  - intros d errs Hv Ht Hd.
    rewrite (validate_task_data_full d errs Hv).
    unfold violations, title_required, description_length.
    rewrite Ht, Hd. split.
    + apply in_or_app. left. now left.
    + do 4 (apply in_or_app; right). now left.
  - intros S storage e st. vm_compute. reflexivity.
Qed.

Lemma validation_reports_every_violation_witness :
  validate_task_data
    (PDict [("title", PStr ""); ("status", PStr "done")]) false =
  Ok ["Title is required";
      "Invalid status. Must be: pending, in-progress, or completed"].
Proof.
  apply (proj1 (proj2 validation_reports_every_violation)); reflexivity.
Defined.

(** In partial mode the list holds the violations of the status,
    priority and description rules, and of no title rule. *)
Lemma validate_task_data_partial (d : list (string * pyval))
  (errs : list string) :
  validate_task_data (PDict d) true = Ok errs ->
  errs = status_member d ++ priority_member d ++ description_length d.
Proof.
  unfold validate_task_data. cbn [negb bind]. intros H.
  apply bind_Ok_inv in H. destruct H as (e2 & H2 & H).
  apply bind_Ok_inv in H. destruct H as (e3 & H3 & H).
  apply bind_Ok_inv in H. destruct H as (e4 & H4 & H).
  inversion H; subst errs; clear H.
  apply member_step in H2. apply member_step in H3.
  apply description_step in H4. subst.
  unfold status_member, priority_member. cbn [app].
  now rewrite <- !app_assoc.
Qed.

(** C2 -- the partial mode of [validate_task_data] skips the title-length
    rule together with the title-required rule: a title of 201
    characters passes partial validation, while full validation reports
    it, and a description of 1001 characters is reported in both modes;
    for every field map the partial list holds no title message. *)
Theorem partial_mode_skips_title_length :
  validate_task_data (PDict [("title", PStr (repeat_char "x" 201))]) true
    = Ok [] /\
  validate_task_data (PDict [("title", PStr (repeat_char "x" 201))]) false
    = Ok ["Title must be less than 200 characters"] /\
  validate_task_data
    (PDict [("description", PStr (repeat_char "x" 1001))]) true
    = Ok ["Description must be less than 1000 characters"] /\
  (forall d errs,
     validate_task_data (PDict d) true = Ok errs ->
     errs = status_member d ++ priority_member d ++ description_length d).
Proof.
  repeat split; try (vm_compute; reflexivity).
  exact validate_task_data_partial.
Qed.

End ValidationFacts.

(* ================================================================== *)
(** * The store of [session1_model2]                                    *)
(* ================================================================== *)

Section Session1Facts.

Lemma get_id_record (d : list (string * pyval)) :
  get "id" PNone (PDict d) = Ok (field "id" d).
Proof. reflexivity. Qed.

Lemma find_index_skip (v : pyval) (l1 : list pyval) :
  forall (i : nat) (l2 : list pyval),
    forallb (other_record v) l1 = true ->
    Session1.find_index v i (l1 ++ l2) =
    Session1.find_index v (i + List.length l1) l2.
Proof.
  induction l1 as [| x l1 IH]; intros i l2 Hall; cbn [app List.length].
  - now rewrite Nat.add_0_r.
  - cbn [forallb] in Hall. apply andb_prop in Hall. destruct Hall as [Hx Hall].
    destruct x as [| | | | | d]; try discriminate.
    cbn [other_record] in Hx. apply negb_true_iff in Hx.
    cbn [Session1.find_index]. rewrite get_id_record. cbn [bind].
    rewrite Hx, IH by assumption. f_equal. lia.
Qed.

Lemma find_index_found (v : pyval) (l : list pyval) :
  forall (i j : nat),
    Session1.find_index v i l = Ok (Some j) ->
    exists l1 r l2,
      l = l1 ++ r :: l2 /\ j = i + List.length l1 /\
      forallb (other_record v) l1 = true /\ has_id v r = true.
Proof.
  induction l as [| x l IH]; intros i j H; cbn [Session1.find_index] in H.
  - discriminate.
  - destruct x as [| | | | | d]; try discriminate.
    rewrite get_id_record in H. cbn [bind] in H.
    destruct (Py.eq (field "id" d) v) eqn:Heq.
    + inversion H; subst. exists [], (PDict d), l.
      cbn [app List.length forallb has_id]. repeat split; auto.
    + apply IH in H. destruct H as (l1 & r & l2 & -> & -> & Hall & Hr).
      exists (PDict d :: l1), r, l2.
      cbn [app List.length forallb other_record]. rewrite Heq.
      repeat split; auto; lia.
Qed.

Lemma find_index_absent (v : pyval) (l : list pyval) :
  forall i : nat,
    Session1.find_index v i l = Ok None ->
    forallb (other_record v) l = true.
Proof.
  induction l as [| x l IH]; intros i H; cbn [Session1.find_index] in H.
  - reflexivity.
  - destruct x as [| | | | | d]; try discriminate.
    rewrite get_id_record in H. cbn [bind] in H.
    destruct (Py.eq (field "id" d) v) eqn:Heq; [discriminate |].
    cbn [forallb other_record]. rewrite Heq. cbn [negb andb]. eauto.
Qed.

Lemma set_nth_app (l1 : list pyval) (r : pyval) (l2 : list pyval) (x : pyval) :
  Session1.set_nth (l1 ++ r :: l2) (List.length l1) x = l1 ++ x :: l2.
Proof.
  induction l1 as [| y l1 IH]; cbn [app List.length Session1.set_nth].
  - reflexivity.
  - now rewrite IH.
Qed.

(** A string id equals itself. *)
Lemma eq_str_refl (s : string) : Py.eq (PStr s) (PStr s) = true.
Proof. cbn [Py.eq]. apply String.eqb_refl. Qed.

Lemma has_id_to_dict (v : pyval) (t : Task) :
  has_id v (to_dict t) = Py.eq (id t) v.
Proof. reflexivity. Qed.

Lemma other_record_has_id (v r : pyval) :
  other_record v r = true -> has_id v r = false.
Proof.
  destruct r; cbn [other_record has_id]; try discriminate.
  apply negb_true_iff.
Qed.

Lemma load_records (f : fs) (l : list pyval) :
  Session1._load f = Ok (PList l) -> records f = l.
Proof.
  destruct f as [[raw | raw | v] |]; cbn [Session1._load records].
  - discriminate.
  - now inversion 1.
  - intros H; inversion H; reflexivity.
  - now inversion 1.
Qed.


(** A save of a task whose id no record carries appends it. *)
Lemma save1_appends (t : Task) (f : fs) (l : list pyval) :
  validate t = Ok [] ->
  Session1._load f = Ok (PList l) ->
  forallb (other_record (id t)) l = true ->
  Session1.save t f = (Ok tt, Some (Json (PList (l ++ [to_dict t])))).
Proof.
  intros Hval Hload Hall.
  unfold Session1.save, Session1.save_body. rewrite Hval, Hload.
  cbn [iter bind].
  rewrite <- (app_nil_r l) at 1. rewrite find_index_skip by assumption.
  reflexivity.
Qed.

(** What a successful save did. *)
Lemma save1_inv (t : Task) (f f1 : fs) :
  Session1.save t f = (Ok tt, f1) ->
  validate t = Ok [] /\
  exists l,
    Session1._load f = Ok (PList l) /\
    ((exists l1 r l2,
        l = l1 ++ r :: l2 /\ forallb (other_record (id t)) l1 = true /\
        has_id (id t) r = true /\
        f1 = Some (Json (PList (l1 ++ to_dict t :: l2)))) \/
     (forallb (other_record (id t)) l = true /\
      f1 = Some (Json (PList (l ++ [to_dict t]))))).
Proof.
  unfold Session1.save, Session1.save_body.
  destruct (validate t) as [[| m errs] | x]; try discriminate.
  intros H. split; [reflexivity |].
  destruct (Session1._load f) as [[| b | z | s | l | d] | x] eqn:Hload;
    cbn [iter bind] in H; try discriminate.
  - destruct s; cbn in H; discriminate.
  - exists l. split; [reflexivity |].
    destruct (Session1.find_index (id t) 0 l) as [[j |] | x] eqn:Hfind;
      cbn [bind Session1.setitem Session1.append Session1._save] in H;
      try discriminate.
    + left. apply find_index_found in Hfind.
      destruct Hfind as (l1 & r & l2 & -> & -> & Hall & Hr).
      exists l1, r, l2. repeat split; auto.
      cbn [Nat.add] in H. rewrite set_nth_app in H. now inversion H.
    + right. apply find_index_absent in Hfind. split; auto. now inversion H.
  - destruct d as [| [k v] d]; cbn in H; discriminate.
Qed.

Lemma count_other (v : pyval) (l : list pyval) :
  forallb (other_record v) l = true -> filter (has_id v) l = [].
Proof.
  induction l as [| x l IH]; cbn [forallb filter]; [reflexivity |].
  intros H. apply andb_prop in H. destruct H as [Hx Hl].
  now rewrite (other_record_has_id v x Hx), IH.
Qed.


Lemma eq_str_inv (x : pyval) (s : string) :
  Py.eq x (PStr s) = true -> x = PStr s.
Proof.
  destruct x; cbn [Py.eq]; try discriminate.
  intros H. apply String.eqb_eq in H. now subst.
Qed.

Lemma has_id_str (i s : string) (r : pyval) :
  has_id (PStr i) r = true -> has_id (PStr s) r = String.eqb i s.
Proof.
  destruct r as [| | | | | d]; cbn [has_id]; try discriminate.
  intros H. apply eq_str_inv in H. now rewrite H.
Qed.

(** The invariant of the data model: [save] keeps string ids unique. *)
Lemma save1_keeps_ids_unique (t : Task) (i : string) (f f1 : fs) :
  id t = PStr i ->
  Session1.save t f = (Ok tt, f1) ->
  (forall s, count_id (PStr s) f <= 1) ->
  forall s, count_id (PStr s) f1 <= 1.
Proof.
  intros Hid Hsave Hinv s. apply save1_inv in Hsave.
  destruct Hsave as (_ & l & Hload & Hcases).
  pose proof (load_records f l Hload) as Hrec.
  specialize (Hinv s). unfold count_id in *. rewrite Hrec in Hinv.
  rewrite Hid in Hcases.
  destruct Hcases as [(l1 & r & l2 & -> & Hall & Hr & ->) | (Hall & ->)];
    cbn [records]; rewrite filter_app in *; cbn [filter] in *;
    rewrite has_id_to_dict, Hid; cbn [Py.eq].
  - rewrite (has_id_str i s r Hr) in Hinv.
    destruct (String.eqb i s); rewrite !length_app in *;
      cbn [List.length] in *; exact Hinv.
  - destruct (String.eqb_spec i s) as [-> | Hne].
    + rewrite (count_other _ _ Hall). cbn [app List.length]. lia.
    + rewrite app_nil_r. exact Hinv.
Qed.

End Session1Facts.

(* ================================================================== *)
(** * The store of [session4_model4]                                    *)
(* ================================================================== *)

Section Session4Facts.

Lemma from_dict_well_formed (e : entropy) (x : pyval) (t : Task) :
  datetime_ok (utcnow e) = true -> from_dict e x = Ok t -> well_formed t.
Proof.
  intros Hnow H. unfold from_dict in H.
  destruct (from_dict_body e x) as [t' | x'] eqn:Hb;
    [| destruct x'; discriminate].
  inversion H; subst t'; clear H. unfold from_dict_body in Hb.
  apply bind_Ok_inv in Hb. destruct Hb as (st & _ & Hb).
  apply bind_Ok_inv in Hb. destruct Hb as (pr & _ & Hb).
  apply bind_Ok_inv in Hb. destruct Hb as (ca & Hca & Hb).
  apply bind_Ok_inv in Hb. destruct Hb as (i & _ & Hb).
  apply bind_Ok_inv in Hb. destruct Hb as (ti & _ & Hb).
  apply bind_Ok_inv in Hb. destruct Hb as (de & _ & Hb).
  inversion Hb; subst t; clear Hb. unfold well_formed.
  cbn [Models.created_at].
  apply bind_Ok_inv in Hca. destruct Hca as ([|] & _ & Hca).
  - apply bind_Ok_inv in Hca. destruct Hca as (v & _ & Hv).
    unfold fromisoformat_value in Hv. destruct v; try discriminate.
    destruct (fromisoformat s) as [d |] eqn:Hp; [| discriminate].
    inversion Hv; subst. eapply fromisoformat_ok; eauto.
  - now inversion Hca.
Qed.

Lemma from_dicts_well_formed (es : nat -> entropy) :
  (forall i, datetime_ok (utcnow (es i)) = true) ->
  forall (items : list pyval) (i : nat) (ts : list Task),
    Session4.from_dicts es i items = Ok ts -> Forall well_formed ts.
Proof.
  intros Hes. induction items as [| x items IH]; intros i ts H;
    cbn [Session4.from_dicts] in H.
  - inversion H. constructor.
  - apply bind_Ok_inv in H. destruct H as (t & Ht & H).
    apply bind_Ok_inv in H. destruct H as (ts' & Hts & H).
    inversion H; subst. constructor; eauto using from_dict_well_formed.
Qed.

Lemma from_dicts_to_dicts (es : nat -> entropy) (ts : list Task) :
  Forall well_formed ts ->
  forall i, Session4.from_dicts es i (map to_dict ts) = Ok ts.
Proof.
  induction 1 as [| t ts Ht Hts IH]; intros i; cbn [map Session4.from_dicts].
  - reflexivity.
  - rewrite from_dict_to_dict by exact Ht. cbn [bind]. now rewrite IH.
Qed.

Lemma load4_well_formed (es : nat -> entropy) (f f' : fs) (ts : list Task) :
  (forall i, datetime_ok (utcnow (es i)) = true) ->
  Session4._load es f = (Ok ts, f') -> Forall well_formed ts.
Proof.
  intros Hes H. unfold Session4._load in H.
  destruct f as [[raw | raw | data] |]; try (inversion H; constructor).
  destruct (iter data) as [items | x] eqn:Hit; cbn [bind] in H.
  - destruct (Session4.from_dicts es 0 items) as [ts' | x] eqn:Hfd.
    + inversion H; subst. eapply from_dicts_well_formed; eauto.
    + destruct x; inversion H; constructor.
  - destruct x; inversion H; constructor.
Qed.

(** Reading back what [_save] wrote returns the tasks written. *)
Lemma load4_saved (es : nat -> entropy) (ts : list Task) :
  Forall well_formed ts ->
  Session4._load es (Session4._save ts) = (Ok ts, Session4._save ts).
Proof.
  intros Hts. unfold Session4._load, Session4._save. cbn [iter bind].
  now rewrite from_dicts_to_dicts.
Qed.

Lemma replace_first_skip (t : Task) (ts1 : list Task) :
  forall ts2 : list Task,
    forallb (other_task (id t)) ts1 = true ->
    Session4.replace_first t (ts1 ++ ts2) =
    option_map (app ts1) (Session4.replace_first t ts2).
Proof.
  induction ts1 as [| y ts1 IH]; intros ts2 Hall; cbn [app].
  - now destruct (Session4.replace_first t ts2).
  - cbn [forallb] in Hall. apply andb_prop in Hall. destruct Hall as [Hy Hall].
    unfold other_task, id_is in Hy. apply negb_true_iff in Hy.
    cbn [Session4.replace_first]. rewrite Hy, IH by assumption.
    now destruct (Session4.replace_first t ts2).
Qed.

Lemma replace_first_found (t : Task) (ts ts' : list Task) :
  Session4.replace_first t ts = Some ts' ->
  exists ts1 x ts2,
    ts = ts1 ++ x :: ts2 /\ forallb (other_task (id t)) ts1 = true /\
    id_is (id t) x = true /\ ts' = ts1 ++ t :: ts2.
Proof.
  revert ts'. induction ts as [| y ts IH]; intros ts' H;
    cbn [Session4.replace_first] in H; [discriminate |].
  destruct (Py.eq (id y) (id t)) eqn:Heq.
  - inversion H; subst. exists [], y, ts. unfold id_is. repeat split; auto.
  - destruct (Session4.replace_first t ts) as [ts0 |];
      cbn [option_map] in H; [| discriminate].
    inversion H; subst.
    destruct (IH ts0 eq_refl) as (ts1 & x & ts2 & -> & Hall & Hx & ->).
    exists (y :: ts1), x, ts2. cbn [app forallb].
    unfold other_task at 1, id_is at 1. rewrite Heq. repeat split; auto.
Qed.

Lemma replace_first_absent (t : Task) (ts : list Task) :
  Session4.replace_first t ts = None ->
  forallb (other_task (id t)) ts = true.
Proof.
  induction ts as [| y ts IH]; cbn [Session4.replace_first]; [reflexivity |].
  destruct (Py.eq (id y) (id t)) eqn:Heq; [discriminate |].
  destruct (Session4.replace_first t ts); cbn [option_map];
    [discriminate |]. intros _.
  cbn [forallb]. unfold other_task at 1, id_is at 1. rewrite Heq. auto.
Qed.

Lemma upsert_replaces (t : Task) (ts1 : list Task) (x : Task)
  (ts2 : list Task) :
  forallb (other_task (id t)) ts1 = true ->
  id_is (id t) x = true ->
  Session4.upsert t (ts1 ++ x :: ts2) = ts1 ++ t :: ts2.
Proof.
  intros Hall Hx. unfold Session4.upsert.
  rewrite replace_first_skip by assumption.
  cbn [Session4.replace_first]. unfold id_is in Hx. now rewrite Hx.
Qed.

Lemma upsert_appends (t : Task) (ts : list Task) :
  forallb (other_task (id t)) ts = true ->
  Session4.upsert t ts = ts ++ [t].
Proof.
  intros Hall. unfold Session4.upsert.
  rewrite <- (app_nil_r ts) at 1.
  now rewrite replace_first_skip by assumption.
Qed.

Lemma upsert_cases (t : Task) (ts : list Task) :
  (exists ts1 x ts2,
      ts = ts1 ++ x :: ts2 /\ forallb (other_task (id t)) ts1 = true /\
      id_is (id t) x = true /\ Session4.upsert t ts = ts1 ++ t :: ts2) \/
  (forallb (other_task (id t)) ts = true /\
   Session4.upsert t ts = ts ++ [t]).
Proof.
  destruct (Session4.replace_first t ts) as [ts' |] eqn:H.
  - left. apply replace_first_found in H.
    destruct H as (ts1 & x & ts2 & -> & Hall & Hx & ->).
    exists ts1, x, ts2. repeat split; auto. now apply upsert_replaces.
  - right. apply replace_first_absent in H. split; auto.
    now apply upsert_appends.
Qed.


Lemma count_other_tasks (v : pyval) (ts : list Task) :
  forallb (other_task v) ts = true -> filter (id_is v) ts = [].
Proof.
  induction ts as [| t ts IH]; cbn [forallb filter]; [reflexivity |].
  intros H. apply andb_prop in H. destruct H as [Ht Hts].
  unfold other_task in Ht. apply negb_true_iff in Ht. now rewrite Ht, IH.
Qed.

Lemma id_is_str (i s : string) (x : Task) :
  id_is (PStr i) x = true -> id_is (PStr s) x = String.eqb i s.
Proof.
  unfold id_is. intros H. apply eq_str_inv in H. rewrite H. reflexivity.
Qed.

(** The invariant of the data model: the upsert keeps string ids
    unique. *)
Lemma upsert_keeps_ids_unique (t : Task) (i : string) (ts : list Task) :
  id t = PStr i ->
  (forall s, List.length (filter (id_is (PStr s)) ts) <= 1) ->
  forall s, List.length (filter (id_is (PStr s)) (Session4.upsert t ts)) <= 1.
Proof.
  intros Hid Hinv s. specialize (Hinv s).
  assert (Ht : id_is (PStr s) t = String.eqb i s)
    by (unfold id_is; now rewrite Hid).
  destruct (upsert_cases t ts)
    as [(ts1 & x & ts2 & -> & Hall & Hx & ->) | (Hall & ->)];
    rewrite Hid in *; rewrite filter_app in *; cbn [filter] in *; rewrite Ht.
  - rewrite (id_is_str i s x Hx) in Hinv.
    destruct (String.eqb i s); rewrite !length_app in *;
      cbn [List.length] in *; exact Hinv.
  - destruct (String.eqb_spec i s) as [-> | Hne].
    + rewrite (count_other_tasks _ _ Hall). cbn [app List.length]. lia.
    + rewrite app_nil_r. exact Hinv.
Qed.

Lemma save4_spec (es : nat -> entropy) (t : Task) (f f' : fs)
  (ts : list Task) :
  Session4._load es f = (Ok ts, f') ->
  Session4.save es t f = (Ok tt, Session4._save (Session4.upsert t ts)).
Proof. intros H. unfold Session4.save. now rewrite H. Qed.

Lemma save4_inv (es : nat -> entropy) (t : Task) (f f1 : fs) :
  Session4.save es t f = (Ok tt, f1) ->
  exists ts f',
    Session4._load es f = (Ok ts, f') /\
    f1 = Session4._save (Session4.upsert t ts).
Proof.
  unfold Session4.save.
  destruct (Session4._load es f) as [[ts | x] f'] eqn:H; [| discriminate].
  intros E. inversion E. eauto.
Qed.


End Session4Facts.

(* ================================================================== *)
(** * Properties of the two stores                                      *)
(* ================================================================== *)

Section StorageClaims.

(** C1 -- validation before persistence, as the code has it: the store
    of [session1_model2] validates first: for every task whose
    [validate()] returns a non-empty list, [save] raises the validation
    [ValueError] that joins the messages, and the file is left exactly
    as it was.  The store of [session4_model4] does not validate: its
    [save] writes the upserted collection for every task, whenever the
    file loads. *)
Theorem save_validates_first :
  (forall (t : Task) (f : fs) (errs : list string),
     validate t = Ok errs -> errs <> [] ->
     Session1.save t f =
     (Err (ValueError (Msg ("Invalid task data: " ++ join "; " errs))), f)) /\
  (forall (es : nat -> entropy) (t : Task) (f f' : fs) (ts : list Task),
     Session4._load es f = (Ok ts, f') ->
     Session4.save es t f = (Ok tt, Session4._save (Session4.upsert t ts))).
Proof.
  split.
  - intros t f errs Hval Hne. unfold Session1.save. rewrite Hval.
    destruct errs as [| m errs]; [contradiction | reflexivity].
  - intros es t f f' ts Hload. now apply save4_spec with (f' := f').
Qed.

Lemma save_validates_first_witness :
  Session1.save untitled_task None =
  (Err (ValueError (Msg "Invalid task data: Title is required")), None).
Proof.
  apply (proj1 save_validates_first untitled_task None ["Title is required"]).
  - reflexivity.
  - discriminate.
Defined.

(** The claim C1 fails on the store of [session4_model4]: a task with
    an empty title is invalid, and [save] persists it. *)
Lemma session4_save_persists_invalid_task :
  ~ (forall (es : nat -> entropy) (t : Task) (f : fs) (errs : list string),
       validate t = Ok errs -> errs <> [] ->
       exists x, Session4.save es t f = (Err x, f)).
Proof.
  intros H.
  destruct (H (fun _ => sample_entropy) untitled_task None
              ["Title is required"] eq_refl) as [x Hx].
  - discriminate.
  - vm_compute in Hx. discriminate Hx.
Qed.





End StorageClaims.

(** What the two stores do with the file that holds the number 5. *)
Example wrong_shape_file_results (es : nat -> entropy) :
  Session4.get_all es (Some (Json (PInt 5))) =
    (Err TypeError, Some (Json (PInt 5))) /\
  Session1.get_all es (Some (Json (PInt 5))) =
    (Err (IOError (MsgOf "Failed to load tasks: " TypeError)),
     Some (Json (PInt 5))).
Proof. split; reflexivity. Qed.

(* ================================================================== *)
(** * Properties of the task manager                                    *)
(* ================================================================== *)

Section ManagerClaims.

Context {S : Type} {storage : Storage S}.

Lemma TaskStatus_of_inv (s : string) (e : TaskStatus) :
  TaskStatus_of (PStr s) = Ok e -> s = status_value e.
Proof.
  cbn [TaskStatus_of].
  destruct (String.eqb_spec s "pending") as [-> |];
    [intros H; inversion H; reflexivity |].
  destruct (String.eqb_spec s "in-progress") as [-> |];
    [intros H; inversion H; reflexivity |].
  destruct (String.eqb_spec s "completed") as [-> |];
    [intros H; inversion H; reflexivity | discriminate].
Qed.

Lemma TaskPriority_of_inv (s : string) (e : TaskPriority) :
  TaskPriority_of (PStr s) = Ok e -> s = priority_value e.
Proof.
  cbn [TaskPriority_of].
  destruct (String.eqb_spec s "low") as [-> |];
    [intros H; inversion H; reflexivity |].
  destruct (String.eqb_spec s "medium") as [-> |];
    [intros H; inversion H; reflexivity |].
  destruct (String.eqb_spec s "high") as [-> |];
    [intros H; inversion H; reflexivity | discriminate].
Qed.

Lemma status_eqb_value (a b : TaskStatus) :
  TaskManager.status_eqb a b = String.eqb (status_value a) (status_value b).
Proof. destruct a, b; reflexivity. Qed.

Lemma priority_eqb_value (a b : TaskPriority) :
  TaskManager.priority_eqb a b =
  String.eqb (priority_value a) (priority_value b).
Proof. destruct a, b; reflexivity. Qed.

Lemma filter_filter {A : Type} (p q : A -> bool) (l : list A) :
  filter q (filter p l) = filter (fun x => p x && q x) l.
Proof.
  induction l as [| x l IH]; cbn [filter]; [reflexivity |].
  destruct (p x); cbn [filter andb]; [destruct (q x) |]; now rewrite IH.
Qed.

Lemma filter_true {A : Type} (l : list A) : filter (fun _ => true) l = l.
Proof. induction l as [| x l IH]; cbn [filter]; now rewrite ?IH. Qed.

Lemma bad_filter_effective (flt : option string) (values : list pyval) :
  TaskManager.bad_filter flt values = not_member (effective flt) values.
Proof.
  destruct flt as [s |]; cbn [TaskManager.bad_filter effective truthy];
    [| reflexivity].
  destruct (String.eqb s ""); reflexivity.
Qed.

Lemma given_effective (flt : option string) :
  TaskManager.given flt = effective flt.
Proof.
  destruct flt as [s |]; cbn [TaskManager.given effective truthy];
    [| reflexivity].
  destruct (String.eqb s ""); reflexivity.
Qed.

(** The filtering of [get_all_tasks] once both filters passed the
    membership test. *)
Lemma filters_apply (sf pf : option string) (tasks : list Task) :
  not_member sf status_values = false ->
  not_member pf priority_values = false ->
  (tasks <-
     (match sf with
      | Some s =>
          status_enum <- TaskStatus_of (PStr s) ;;
          Ok (filter (fun task =>
                        TaskManager.status_eqb (status task) status_enum)
                     tasks)
      | None => Ok tasks
      end) ;;
   match pf with
   | Some p =>
       priority_enum <- TaskPriority_of (PStr p) ;;
       Ok (filter (fun task =>
                     TaskManager.priority_eqb (priority task) priority_enum)
                  tasks)
   | None => Ok tasks
   end)
  = Ok (filter (fun t => matches_status sf t && matches_priority pf t) tasks).
Proof.
  intros Hs Hp.
  assert (Es : match sf with
               | Some s =>
                   status_enum <- TaskStatus_of (PStr s) ;;
                   Ok (filter (fun task =>
                                 TaskManager.status_eqb (status task)
                                   status_enum) tasks)
               | None => Ok tasks
               end = Ok (filter (matches_status sf) tasks)).
  { destruct sf as [s |]; cbn [matches_status]; [| now rewrite filter_true].
    cbn [not_member] in Hs. apply negb_false_iff in Hs.
    apply TaskStatus_of_member in Hs. destruct Hs as [e He].
    rewrite He. cbn [bind]. apply TaskStatus_of_inv in He. subst s.
    f_equal. apply filter_ext. intros t. apply status_eqb_value. }
  rewrite Es. cbn [bind].
  destruct pf as [p |]; cbn [matches_priority].
  - cbn [not_member] in Hp. apply negb_false_iff in Hp.
    apply TaskPriority_of_member in Hp. destruct Hp as [e He].
    rewrite He. cbn [bind]. apply TaskPriority_of_inv in He. subst p.
    rewrite filter_filter. f_equal. apply filter_ext. intros t.
    now rewrite priority_eqb_value.
  - f_equal. apply filter_ext. intros t. now rewrite andb_true_r.
Qed.

(** C5 -- filters of [list], as the code has them.  A supplied filter
    counts only when it is not the empty string.  When the status
    filter counts and is not in the closed status set, the call raises
    the invalid-filter [ValueError] naming it, and the store is not
    touched; otherwise the same holds for the priority filter;
    otherwise the call reads the store with [get_all], raises what
    [get_all] raises, and else returns exactly the stored tasks that
    match every filter that counts, in the order of [get_all]. *)
Theorem list_applies_filters (sf pf : option string) (st : S) :
  (not_member (effective sf) status_values = true ->
   exists s, sf = Some s /\
     TaskManager.get_all_tasks sf pf st =
     (Err (ValueError (Msg ("Invalid status filter: " ++ s))), st)) /\
  (not_member (effective sf) status_values = false ->
   not_member (effective pf) priority_values = true ->
   exists p, pf = Some p /\
     TaskManager.get_all_tasks sf pf st =
     (Err (ValueError (Msg ("Invalid priority filter: " ++ p))), st)) /\
  (not_member (effective sf) status_values = false ->
   not_member (effective pf) priority_values = false ->
   TaskManager.get_all_tasks sf pf st =
   match get_all st with
   | (Ok tasks, st') =>
       (Ok (filter (fun t => matches_status (effective sf) t &&
                             matches_priority (effective pf) t) tasks), st')
   | (Err x, st') => (Err x, st')
   end).
Proof.
  unfold TaskManager.get_all_tasks.
  rewrite !bad_filter_effective, !given_effective.
  split; [| split].
  - intros Hs. rewrite Hs.
    destruct sf as [s |]; [| discriminate]. eauto.
  - intros Hs Hp. rewrite Hs, Hp.
    destruct pf as [p |]; [| discriminate]. eauto.
  - intros Hs Hp. rewrite Hs, Hp.
    destruct (get_all st) as [[tasks | x] st']; [| reflexivity].
    assert (Hs' : not_member (effective sf) status_values = false) by exact Hs.
    rewrite (filters_apply (effective sf) (effective pf) tasks Hs Hp).
    reflexivity.
Qed.

(** C10 -- an empty-string filter counts as no filter: for every state
    of the store, [list] called with [status_filter=""] (or
    [priority_filter=""]) neither raises an invalid-filter error nor
    filters: it does what the call without that filter does, although
    the empty string is in neither closed set. *)
Theorem empty_filter_is_no_filter (st : S) :
  (forall pf,
     TaskManager.get_all_tasks (Some "") pf st =
     TaskManager.get_all_tasks None pf st) /\
  (forall sf,
     TaskManager.get_all_tasks sf (Some "") st =
     TaskManager.get_all_tasks sf None st) /\
  in_list (PStr "") status_values = false /\
  in_list (PStr "") priority_values = false.
Proof. repeat split. Qed.

End ManagerClaims.

Lemma list_applies_filters_witness :
  exists s, Some "bogus" = Some s /\
    TaskManager.get_all_tasks (storage := Session1_Storage)
      (Some "bogus") None sample_world =
    (Err (ValueError (Msg ("Invalid status filter: " ++ s))), sample_world).
Proof.
  apply (proj1 (list_applies_filters (storage := Session1_Storage)
                  (Some "bogus") None sample_world)).
  reflexivity.
Defined.

(** The claim C5 fails for the empty string: it is supplied, it is not
    in the closed status set, and [list] raises nothing. *)
Lemma empty_filter_is_not_rejected :
  ~ (forall (S : Type) (storage : Storage S) (sf pf : option string) (st : S),
       not_member sf status_values = true \/
       not_member pf priority_values = true ->
       exists m, fst (TaskManager.get_all_tasks sf pf st) =
                 Err (ValueError m)).
Proof.
  intros H.
  destruct (H world Session1_Storage (Some "") None sample_world
              (or_introl eq_refl)) as [m Hm].
  vm_compute in Hm. discriminate Hm.
Qed.

Section UpdateClaims.

Context {S : Type} {storage : Storage S}.

(** What the assignments of [update_task] leave in each field. *)
Lemma apply_updates_fields (t t' : Task) (d : list (string * pyval)) :
  TaskManager.apply_updates t (PDict d) = Ok t' ->
  id t' = id t /\
  created_at t' = created_at t /\
  title t' = match assoc "title" d with Some v => v | None => title t end /\
  description t' =
    match assoc "description" d with Some v => v | None => description t end /\
  match assoc "status" d with
  | Some v => TaskStatus_of v = Ok (status t')
  | None => status t' = status t
  end /\
  match assoc "priority" d with
  | Some v => TaskPriority_of v = Ok (priority t')
  | None => priority t' = priority t
  end.
Proof.
  unfold TaskManager.apply_updates. cbn [contains getitem bind].
  destruct (assoc "title" d) as [vt |];
    destruct (assoc "description" d) as [vd |];
    destruct (assoc "status" d) as [vs |];
    destruct (assoc "priority" d) as [vp |];
    cbn [bind Models.title Models.description Models.status Models.priority
         Models.id Models.created_at];
    try (destruct (TaskStatus_of vs) as [s' | [| | | |]] eqn:Hs;
         cbn [bind]; try discriminate);
    try (destruct (TaskPriority_of vp) as [p' | [| | | |]] eqn:Hp;
         cbn [bind]; try discriminate);
    intros H; inversion H; subst; clear H;
    cbn [Models.title Models.description Models.status Models.priority
         Models.id Models.created_at];
    repeat split; auto.
Qed.

(** C4 -- a partial update touches only the fields of the patch: for
    every stored task and every patch map, when [update_task] succeeds,
    the task it returns is the stored task (the one [get_by_id] found)
    with each field present in the patch set to the patch's value; its
    id and created_at are those of the stored task, and every field
    absent from the patch keeps its previous value.  That task is what
    [save] persisted. *)
Theorem update_changes_only_patched_fields (task_id : string)
  (patch : list (string * pyval)) (st st' : S) (t' : Task) :
  TaskManager.update_task task_id (PDict patch) st = (Ok t', st') ->
  exists t st1,
    get_by_id task_id st = (Ok (Some t), st1) /\
    save t' st1 = (Ok tt, st') /\
    id t' = id t /\
    created_at t' = created_at t /\
    title t' =
      match assoc "title" patch with Some v => v | None => title t end /\
    description t' =
      match assoc "description" patch with
      | Some v => v
      | None => description t
      end /\
    match assoc "status" patch with
    | Some v => TaskStatus_of v = Ok (status t')
    | None => status t' = status t
    end /\
    match assoc "priority" patch with
    | Some v => TaskPriority_of v = Ok (priority t')
    | None => priority t' = priority t
    end.
Proof.
  unfold TaskManager.update_task. intros H.
  destruct (get_by_id task_id st) as [[[t |] | x] st1] eqn:Hget;
    try discriminate.
  destruct (validate_task_data (PDict patch) true) as [[| m errs] | x];
    try discriminate.
  destruct (TaskManager.apply_updates t (PDict patch)) as [t1 | x] eqn:Happ;
    try discriminate.
  destruct (validate t1) as [[| m errs] | x]; try discriminate.
  destruct (save t1 st1) as [[[] | x] st2] eqn:Hsave; try discriminate.
  inversion H; subst t1 st2; clear H.
  exists t, st1. split; [reflexivity |]. split; [exact Hsave |].
  now apply apply_updates_fields.
Qed.

End UpdateClaims.

Lemma update_changes_only_patched_fields_witness :
  exists t st1,
    get_by_id (Storage := Session1_Storage) "task-1" stored_world =
      (Ok (Some t), st1) /\
    save (Storage := Session1_Storage)
      (mkTask (PStr "A") PNone COMPLETED LOW (PStr "task-1") noon) st1 =
      (Ok tt,
       snd (TaskManager.update_task (storage := Session1_Storage) "task-1"
              (PDict [("status", PStr "completed")]) stored_world)) /\
    PStr "task-1" = id t /\
    noon = created_at t /\
    PStr "A" = title t /\
    PNone = description t /\
    TaskStatus_of (PStr "completed") = Ok COMPLETED /\
    LOW = priority t.
Proof.
  apply (update_changes_only_patched_fields (storage := Session1_Storage)
           "task-1" [("status", PStr "completed")] stored_world).
  vm_compute. reflexivity.
Defined.

(* ================================================================== *)
(** * Further properties of the store of [session1_model2]              *)
(* ================================================================== *)

Section Session1More.

Lemma lookup_skip (es : nat -> entropy) (task_id : string) (l1 : list pyval) :
  forall (i : nat) (l2 : list pyval),
    forallb (other_record (PStr task_id)) l1 = true ->
    Session1.lookup es i task_id (l1 ++ l2) =
    Session1.lookup es (i + List.length l1) task_id l2.
Proof.
  induction l1 as [| x l1 IH]; intros i l2 Hall; cbn [app List.length].
  - now rewrite Nat.add_0_r.
  - cbn [forallb] in Hall. apply andb_prop in Hall. destruct Hall as [Hx Hall].
    destruct x as [| | | | | d]; try discriminate.
    cbn [other_record] in Hx. apply negb_true_iff in Hx.
    cbn [Session1.lookup]. rewrite get_id_record. cbn [bind].
    rewrite Hx, IH by assumption. f_equal. lia.
Qed.

Lemma lookup_absent (es : nat -> entropy) (task_id : string) (l : list pyval)
  (i : nat) :
  forallb (other_record (PStr task_id)) l = true ->
  Session1.lookup es i task_id l = Ok None.
Proof.
  intros Hall. rewrite <- (app_nil_r l). now rewrite lookup_skip.
Qed.

Lemma get_by_id1_after_save (es : nat -> entropy) (t : Task) (i : string)
  (f f1 : fs) :
  id t = PStr i ->
  well_formed t ->
  Session1.save t f = (Ok tt, f1) ->
  Session1.get_by_id es i f1 = (Ok (Some t), f1).
Proof.
  intros Hid Hwf Hsave. apply save1_inv in Hsave.
  destruct Hsave as (_ & l & _ & Hcases). rewrite Hid in Hcases.
  assert (Hhit : forall l1 l2,
             forallb (other_record (PStr i)) l1 = true ->
             Session1.get_by_id es i
               (Some (Json (PList (l1 ++ to_dict t :: l2)))) =
             (Ok (Some t), Some (Json (PList (l1 ++ to_dict t :: l2))))).
  { intros l1 l2 Hall. unfold Session1.get_by_id.
    cbn [Session1._load iter bind]. rewrite lookup_skip by assumption.
    cbn [Session1.lookup]. change (get "id" PNone (to_dict t)) with (Ok (id t)).
    cbn [bind]. rewrite Hid, eq_str_refl.
    now rewrite from_dict_to_dict. }
  destruct Hcases as [(l1 & r & l2 & -> & Hall & Hr & ->) | (Hall & ->)];
    now apply Hhit.
Qed.

(** X1 -- insert then look up, in the list-of-dict store: after a
    successful [save] of a task with a string id and a well-formed
    timestamp, [get_by_id] of that id returns the very task saved, and
    reads without writing. *)
Theorem session1_save_then_get (es : nat -> entropy) (t : Task) (i : string)
  (f f1 : fs) :
  id t = PStr i ->
  well_formed t ->
  Session1.save t f = (Ok tt, f1) ->
  Session1.get_by_id es i f1 = (Ok (Some t), f1).
Proof. apply get_by_id1_after_save. Qed.

Lemma session1_save_then_get_witness :
  Session1.get_by_id (fun _ => sample_entropy) "task-1"
    (Some (Json (PList [to_dict sample_task]))) =
  (Ok (Some sample_task), Some (Json (PList [to_dict sample_task]))).
Proof.
  apply (session1_save_then_get (fun _ => sample_entropy) sample_task
           "task-1" None); reflexivity.
Defined.

Lemma lookup_found (es : nat -> entropy) (task_id : string) (t : Task) :
  forall (l : list pyval) (i : nat),
    Session1.lookup es i task_id l = Ok (Some t) -> id t = PStr task_id.
Proof.
  induction l as [| x l IH]; intros i H; cbn [Session1.lookup] in H.
  - discriminate.
  - destruct x as [| | | | | d]; try discriminate.
    rewrite get_id_record in H. cbn [bind] in H.
    destruct (Py.eq (field "id" d) (PStr task_id)) eqn:Heq; [| eauto].
    destruct (from_dict (es i) (PDict d)) as [t0 | x] eqn:Hfd.
    + inversion H; subst t0; clear H.
      apply eq_str_inv in Heq. unfold field in Heq.
      unfold from_dict in Hfd. rewrite from_dict_body_dict in Hfd.
      destruct (status_of_record d) as [st | x1]; cbn [bind] in Hfd;
        [| destruct x1; discriminate].
      destruct (priority_of_record d) as [pr | x2]; cbn [bind] in Hfd;
        [| destruct x2; discriminate].
      destruct (created_at_of_record (es i) d) as [ca | x3];
        cbn [bind] in Hfd; [| destruct x3; discriminate].
      inversion Hfd; subst t; cbn [Models.id].
      destruct (assoc "id" d); [assumption | discriminate].
    + destruct x; try discriminate. eauto.
Qed.

(** X2 -- [get_by_id] answers the question asked, in the list-of-dict
    store: a task it returns carries the requested id, and the call
    never writes the file, whatever it returns or raises. *)
Theorem session1_get_by_id_returns_requested (es : nat -> entropy)
  (task_id : string) (f : fs) :
  snd (Session1.get_by_id es task_id f) = f /\
  (forall t f',
     Session1.get_by_id es task_id f = (Ok (Some t), f') ->
     id t = PStr task_id).
Proof.
  unfold Session1.get_by_id.
  destruct (Session1._load f) as [data | x0]; cbn [bind];
    [destruct (iter data) as [items | x]; cbn [bind] |].
  - destruct (Session1.lookup es 0 task_id items) as [[t |] | x] eqn:Hl;
      cbn [snd]; (split; [reflexivity |]); intros t' f' H; inversion H; subst.
    eapply lookup_found; eauto.
  - split; [reflexivity |]. intros t f' H; inversion H.
  - split; [reflexivity |]. intros t f' H; inversion H.
Qed.

Lemma without_spec (task_id : string) :
  forall (items kept : list pyval),
    Session1.without task_id items = Ok kept ->
    kept = filter (fun r => negb (has_id (PStr task_id) r)) items /\
    forallb (other_record (PStr task_id)) kept = true.
Proof.
  induction items as [| x items IH]; intros kept H; cbn [Session1.without] in H.
  - inversion H. split; reflexivity.
  - destruct x as [| | | | | d]; try discriminate.
    rewrite get_id_record in H. cbn [bind] in H.
    destruct (Session1.without task_id items) as [kept' | e];
      cbn [bind] in H; [| discriminate].
    destruct (IH kept' eq_refl) as [-> Hall].
    cbn [filter has_id].
    destruct (Py.eq (field "id" d) (PStr task_id)) eqn:Heq; cbn [negb] in *;
      inversion H; subst; split; auto.
    cbn [forallb other_record]. rewrite Heq. cbn [negb andb]. exact Hall.
Qed.

Lemma without_others (task_id : string) (l : list pyval) :
  forallb (other_record (PStr task_id)) l = true ->
  Session1.without task_id l = Ok l.
Proof.
  induction l as [| x l IH]; cbn [forallb Session1.without]; [reflexivity |].
  intros H. apply andb_prop in H. destruct H as [Hx Hl].
  destruct x as [| | | | | d]; try discriminate.
  cbn [other_record] in Hx. rewrite get_id_record. cbn [bind].
  rewrite (IH Hl). cbn [bind]. now rewrite Hx.
Qed.

Lemma filter_split_length {A : Type} (p : A -> bool) (l : list A) :
  List.length (filter (fun x => negb (p x)) l) + List.length (filter p l) =
  List.length l.
Proof.
  induction l as [| x l IH]; cbn [filter]; [reflexivity |].
  destruct (p x); cbn [negb List.length]; lia.
Qed.

Lemma filter_all {A : Type} (p : A -> bool) (l : list A) :
  List.length (filter p l) = 0 -> filter (fun x => negb (p x)) l = l.
Proof.
  induction l as [| x l IH]; cbn [filter]; [reflexivity |].
  destruct (p x); cbn [negb List.length]; [discriminate |].
  intros H. now rewrite IH.
Qed.

(** What a [delete] that returns did. *)
Lemma delete1_inv (task_id : string) (f f1 : fs) (b : bool) :
  Session1.delete task_id f = (Ok b, f1) ->
  let kept := filter (fun r => negb (has_id (PStr task_id) r)) (records f) in
  forallb (other_record (PStr task_id)) kept = true /\
  b = negb (Nat.eqb (count_id (PStr task_id) f) 0) /\
  (b = true -> f1 = Some (Json (PList kept))) /\
  (b = false -> f1 = f /\ kept = records f).
Proof.
  unfold Session1.delete, Session1.delete_body, count_id.
  assert (Hgen : forall (items : list pyval) (n : nat),
            records f = items \/ (items = [] /\ records f = []) ->
            n = List.length items ->
            match
              (kept <- Session1.without task_id items ;;
               if Nat.ltb (List.length kept) n
               then Ok (true, Session1._save (PList kept))
               else Ok (false, f))
            with
            | Ok (b0, f') => (Ok b0, f')
            | Err e =>
                (Err (IOError (MsgOf "Failed to delete task: " e)), f)
            end = (Ok b, f1) ->
            let kept :=
              filter (fun r => negb (has_id (PStr task_id) r)) (records f) in
            forallb (other_record (PStr task_id)) kept = true /\
            b = negb (Nat.eqb
                        (List.length
                           (filter (has_id (PStr task_id)) (records f))) 0) /\
            (b = true -> f1 = Some (Json (PList kept))) /\
            (b = false -> f1 = f /\ kept = records f)).
  { intros items n Hrec -> H.
    assert (Hrec' : records f = items) by (destruct Hrec as [| [-> ->]]; auto).
    rewrite Hrec'. clear Hrec Hrec'.
    destruct (Session1.without task_id items) as [kept |] eqn:Hw;
      cbn [bind] in H; [| discriminate].
    apply without_spec in Hw. destruct Hw as [-> Hall].
    pose proof (filter_split_length (has_id (PStr task_id)) items) as Hlen.
    cbv zeta. split; [exact Hall |].
    destruct (Nat.ltb_spec
                (List.length
                   (filter (fun r => negb (has_id (PStr task_id) r)) items))
                (List.length items)) as [Hlt | Hge];
      inversion H; subst b f1; clear H.
    - split; [| split; [reflexivity | discriminate]].
      destruct (Nat.eqb_spec
                  (List.length (filter (has_id (PStr task_id)) items)) 0);
        [lia | reflexivity].
    - assert (Hz : List.length (filter (has_id (PStr task_id)) items) = 0)
        by lia.
      rewrite Hz. split; [reflexivity |]. split; [discriminate |].
      intros _. split; [reflexivity |]. now apply filter_all. }
  destruct f as [[raw | raw | v] |]; cbn [Session1._load bind].
  - discriminate.
  - cbn [len iter bind]. apply (Hgen [] 0); auto.
  - destruct v as [| b0 | z | s | l | d]; cbn [len iter bind];
      try discriminate.
    + destruct s as [| c s]; cbn [chars String.length].
      * apply (Hgen [] 0); auto.
      * cbn. discriminate.
    + apply (Hgen l (List.length l)); auto.
    + destruct d as [| [k v] d]; cbn [map List.length].
      * apply (Hgen [] 0); auto.
      * cbn. discriminate.
  - cbn [len iter bind]. apply (Hgen [] 0); auto.
Qed.

(** X3 -- [delete] removes exactly the records of the id, in the
    list-of-dict store: when it returns, the records left are the
    records that do not carry the id, in their order; the flag tells
    whether any record carried it; and a [False] means the file was not
    written. *)
Theorem session1_delete_removes_exactly (task_id : string) (f f1 : fs)
  (b : bool) :
  Session1.delete task_id f = (Ok b, f1) ->
  records f1 =
    filter (fun r => negb (has_id (PStr task_id) r)) (records f) /\
  b = negb (Nat.eqb (count_id (PStr task_id) f) 0) /\
  (b = false -> f1 = f).
Proof.
  intros H. apply delete1_inv in H. cbv zeta in H.
  destruct H as (_ & Hb & Ht & Hf). split; [| split; [exact Hb |]].
  - destruct b.
    + now rewrite (Ht eq_refl).
    + destruct (Hf eq_refl) as [-> ->]. reflexivity.
  - intros E. now destruct (Hf E).
Qed.

Lemma session1_delete_removes_exactly_witness :
  records (Some (Json (PList [to_dict second_task]))) =
    filter (fun r => negb (has_id (PStr "task-1") r))
      (records (Some (Json (PList [to_dict sample_task;
                                   to_dict second_task])))) /\
  true = negb (Nat.eqb (count_id (PStr "task-1")
                          (Some (Json (PList [to_dict sample_task;
                                              to_dict second_task])))) 0) /\
  (true = false ->
   Some (Json (PList [to_dict second_task])) =
   Some (Json (PList [to_dict sample_task; to_dict second_task]))).
Proof.
  apply (session1_delete_removes_exactly "task-1"). reflexivity.
Defined.

Lemma delete1_then (es : nat -> entropy) (task_id : string) (f f1 : fs) :
  Session1.delete task_id f = (Ok true, f1) ->
  Session1.get_by_id es task_id f1 = (Ok None, f1) /\
  Session1.delete task_id f1 = (Ok false, f1).
Proof.
  intros H. apply delete1_inv in H. cbv zeta in H.
  destruct H as (Hall & _ & Ht & _). rewrite (Ht eq_refl). split.
  - unfold Session1.get_by_id. cbn [Session1._load iter bind].
    now rewrite lookup_absent.
  - unfold Session1.delete, Session1.delete_body.
    cbn [Session1._load len iter bind].
    rewrite without_others by assumption. cbn [bind].
    now rewrite Nat.ltb_irrefl.
Qed.

(** X4 -- delete is terminal, in the list-of-dict store: after a
    [delete] that returned [True], [get_by_id] of the id returns
    [None] and a second [delete] returns [False], both leaving the
    file as the first [delete] wrote it. *)
Theorem session1_delete_is_terminal (es : nat -> entropy) (task_id : string)
  (f f1 : fs) :
  Session1.delete task_id f = (Ok true, f1) ->
  Session1.get_by_id es task_id f1 = (Ok None, f1) /\
  Session1.delete task_id f1 = (Ok false, f1).
Proof. apply delete1_then. Qed.

Lemma session1_delete_is_terminal_witness :
  Session1.get_by_id (fun _ => sample_entropy) "task-1"
    (Some (Json (PList []))) = (Ok None, Some (Json (PList []))) /\
  Session1.delete "task-1" (Some (Json (PList []))) =
    (Ok false, Some (Json (PList []))).
Proof.
  apply (session1_delete_is_terminal (fun _ => sample_entropy) "task-1"
           (Some (Json (PList [to_dict sample_task])))).
  reflexivity.
Defined.

(** X5 -- a call that raises leaves no trace, in the list-of-dict
    store: a [save] or [delete] that raises leaves the file exactly as
    it was, and [get_all] never writes the file. *)
Theorem session1_failures_leave_file (es : nat -> entropy) (f : fs) :
  (forall t e f1, Session1.save t f = (Err e, f1) -> f1 = f) /\
  (forall task_id e f1, Session1.delete task_id f = (Err e, f1) -> f1 = f) /\
  snd (Session1.get_all es f) = f.
Proof.
  split; [| split].
  - intros t e f1. unfold Session1.save.
    destruct (validate t) as [[| m errs] | x]; try (now inversion 1).
    destruct (Session1.save_body t f); now inversion 1.
  - intros task_id e f1. unfold Session1.delete.
    destruct (Session1.delete_body task_id f) as [[b f'] | x];
      now inversion 1.
  - unfold Session1.get_all.
    now destruct (data <- Session1._load f ;;
                  items <- iter data ;; Session1.collect es 0 items).
Qed.

End Session1More.

Section Session1Reads.

Lemma collect_app (es : nat -> entropy) (l1 : list pyval) :
  forall (i : nat) (l2 : list pyval),
    Session1.collect es i (l1 ++ l2) =
    (r1 <- Session1.collect es i l1 ;;
     r2 <- Session1.collect es (i + List.length l1) l2 ;;
     Ok (r1 ++ r2)).
Proof.
  induction l1 as [| x l1 IH]; intros i l2; cbn [app List.length].
  - cbn [Session1.collect bind]. rewrite Nat.add_0_r.
    now destruct (Session1.collect es i l2).
  - cbn [Session1.collect]. rewrite IH.
    replace (i + S (List.length l1)) with (S i + List.length l1) by lia.
    destruct (from_dict (es i) x) as [t | [| | | |]]; cbn [bind];
      try reflexivity.
    destruct (Session1.collect es (S i) l1) as [r1 |]; cbn [bind];
      [| reflexivity].
    now destruct (Session1.collect es (S i + List.length l1) l2).
Qed.

Lemma collect_saved (es : nat -> entropy) (ts : list Task) :
  Forall well_formed ts ->
  forall i, Session1.collect es i (map to_dict ts) = Ok ts.
Proof.
  induction 1 as [| t ts Ht Hts IH]; intros i; cbn [map Session1.collect].
  - reflexivity.
  - rewrite from_dict_to_dict by exact Ht. now rewrite IH.
Qed.

(** X6 -- one corrupt record does not hide the others, in the
    list-of-dict store: when the file holds the records of well-formed
    tasks and, among them, one record that [from_dict] rejects with a
    [ValueError], [get_all] returns all the tasks around it, in file
    order, and leaves the file as it is. *)
Theorem session1_get_all_skips_corrupt_record (es : nat -> entropy)
  (ts1 ts2 : list Task) (bad : pyval) :
  Forall well_formed ts1 ->
  Forall well_formed ts2 ->
  corrupt_record bad ->
  Session1.get_all es
    (Some (Json (PList (map to_dict ts1 ++ bad :: map to_dict ts2)))) =
  (Ok (ts1 ++ ts2),
   Some (Json (PList (map to_dict ts1 ++ bad :: map to_dict ts2)))).
Proof.
  intros H1 H2 Hbad. unfold Session1.get_all.
  cbn [Session1._load iter bind]. rewrite collect_app.
  rewrite collect_saved by assumption. cbn [bind Session1.collect].
  destruct (Hbad (es (0 + List.length (map to_dict ts1)))) as [m ->].
  rewrite collect_saved by assumption. reflexivity.
Qed.

Lemma bogus_record_is_corrupt : corrupt_record bogus_record.
Proof. intros e. eexists. reflexivity. Qed.

Lemma session1_get_all_skips_corrupt_record_witness :
  Session1.get_all (fun _ => sample_entropy)
    (Some (Json (PList (map to_dict [sample_task] ++
                        bogus_record :: map to_dict [second_task])))) =
  (Ok ([sample_task] ++ [second_task]),
   Some (Json (PList (map to_dict [sample_task] ++
                      bogus_record :: map to_dict [second_task])))).
Proof.
  apply session1_get_all_skips_corrupt_record.
  - repeat constructor.
  - repeat constructor.
  - exact bogus_record_is_corrupt.
Defined.

Lemma others_of_distinct (t : Task) (ts : list Task) :
  string_id t ->
  Forall string_id ts ->
  ~ In (id t) (map id ts) ->
  forallb (other_record (id t)) (map to_dict ts) = true.
Proof.
  intros [i Hi] Hs Hnin. rewrite Hi in *.
  induction Hs as [| x ts [j Hj] Hs IH]; cbn [map forallb]; [reflexivity |].
  cbn [map In] in Hnin.
  rewrite IH by tauto. rewrite andb_true_r.
  change (other_record (PStr i) (to_dict x))
    with (negb (Py.eq (id x) (PStr i))).
  rewrite Hj in *. cbn [Py.eq]. apply negb_true_iff.
  apply String.eqb_neq. intros ->. tauto.
Qed.

Lemma save_each_appends (ts : list Task) :
  forall ts0 : list Task,
    Forall (fun t => validate t = Ok []) ts ->
    Forall string_id (ts0 ++ ts) ->
    NoDup (map id (ts0 ++ ts)) ->
    save_each ts (Some (Json (PList (map to_dict ts0)))) =
    (Ok tt, Some (Json (PList (map to_dict (ts0 ++ ts))))).
Proof.
  induction ts as [| t ts IH]; intros ts0 Hval Hstr Hnd; cbn [save_each].
  - now rewrite app_nil_r.
  - inversion Hval as [| ? ? Ht Hval']; subst.
    assert (Hsplit : ts0 ++ t :: ts = (ts0 ++ [t]) ++ ts)
      by now rewrite <- app_assoc.
    rewrite (save1_appends t (Some (Json (PList (map to_dict ts0))))
               (map to_dict ts0) Ht eq_refl).
    + replace (map to_dict ts0 ++ [to_dict t]) with (map to_dict (ts0 ++ [t]))
        by now rewrite map_app.
      rewrite Hsplit in *. now apply IH.
    + apply Forall_app in Hstr. destruct Hstr as [Hs0 Hst].
      inversion Hst; subst.
      apply others_of_distinct; auto.
      rewrite map_app in Hnd. cbn [map] in Hnd.
      apply NoDup_remove_2 in Hnd. intros Hin. apply Hnd.
      apply in_or_app. now left.
Qed.

(** X7 -- insertion order, in the list-of-dict store: on a store
    constructed over a missing file, saving valid tasks with pairwise
    distinct string ids one after the other leaves the file holding
    exactly their records, in the order of the calls, and [get_all]
    then returns exactly these tasks in that order. *)
Theorem session1_saves_keep_insertion_order (es : nat -> entropy)
  (ts : list Task) :
  Forall (fun t => validate t = Ok []) ts ->
  Forall string_id ts ->
  Forall well_formed ts ->
  NoDup (map id ts) ->
  let f := Some (Json (PList (map to_dict ts))) in
  save_each ts (Session1._ensure_file_exists None) = (Ok tt, f) /\
  Session1.get_all es f = (Ok ts, f).
Proof.
  intros Hval Hstr Hwf Hnd. cbv zeta. split.
  - apply (save_each_appends ts []); assumption.
  - unfold Session1.get_all. cbn [Session1._load iter bind].
    now rewrite collect_saved.
Qed.

Lemma session1_saves_keep_insertion_order_witness :
  save_each [sample_task; second_task] (Session1._ensure_file_exists None) =
    (Ok tt, Some (Json (PList (map to_dict [sample_task; second_task])))) /\
  Session1.get_all (fun _ => sample_entropy)
    (Some (Json (PList (map to_dict [sample_task; second_task])))) =
    (Ok [sample_task; second_task],
     Some (Json (PList (map to_dict [sample_task; second_task])))).
Proof.
  apply (session1_saves_keep_insertion_order (fun _ => sample_entropy)
           [sample_task; second_task]).
  - repeat constructor.
  - repeat constructor; eexists; reflexivity.
  - repeat constructor.
  - repeat constructor; cbn; intuition discriminate.
Defined.

End Session1Reads.

(* ================================================================== *)
(** * Further properties of the store of [session4_model4]              *)
(* ================================================================== *)

Section Session4More.

Lemma upsert_well_formed (t : Task) (ts : list Task) :
  well_formed t -> Forall well_formed ts ->
  Forall well_formed (Session4.upsert t ts).
Proof.
  intros Ht Hts.
  destruct (upsert_cases t ts)
    as [(ts1 & x & ts2 & -> & _ & _ & ->) | (_ & ->)].
  - apply Forall_app in Hts. destruct Hts as [H1 H2].
    inversion H2; subst. apply Forall_app. split; auto.
  - apply Forall_app. split; auto.
Qed.

Lemma find_skip (v : pyval) (ts1 ts2 : list Task) :
  forallb (other_task v) ts1 = true ->
  find (id_is v) (ts1 ++ ts2) = find (id_is v) ts2.
Proof.
  induction ts1 as [| x ts1 IH]; cbn [app forallb find]; [reflexivity |].
  intros H. apply andb_prop in H. destruct H as [Hx H].
  unfold other_task in Hx. apply negb_true_iff in Hx. now rewrite Hx, IH.
Qed.

Lemma find_upsert (t : Task) (ts : list Task) :
  id_is (id t) t = true ->
  find (id_is (id t)) (Session4.upsert t ts) = Some t.
Proof.
  intros Hrefl.
  destruct (upsert_cases t ts)
    as [(ts1 & x & ts2 & -> & Hall & _ & ->) | (Hall & ->)];
    rewrite find_skip by assumption; cbn [find]; now rewrite Hrefl.
Qed.

Lemma in_upsert (t : Task) (ts : list Task) : In t (Session4.upsert t ts).
Proof.
  destruct (upsert_cases t ts)
    as [(ts1 & x & ts2 & -> & _ & _ & ->) | (_ & ->)];
    apply in_or_app; right; now left.
Qed.

(** X8 -- insert then look up, in the list-of-Task store: after a
    successful [save] of a task with a string id and a well-formed
    timestamp (the clock giving well-formed timestamps), [get_by_id] of
    that id returns the very task saved, [get_all] returns a list that
    contains it, and neither read changes the file. *)
Theorem session4_save_then_get (es es' : nat -> entropy) (t : Task)
  (i : string) (f f1 : fs) :
  id t = PStr i ->
  well_formed t ->
  (forall k, datetime_ok (utcnow (es k)) = true) ->
  Session4.save es t f = (Ok tt, f1) ->
  Session4.get_by_id es' i f1 = (Ok (Some t), f1) /\
  exists ts, Session4.get_all es' f1 = (Ok ts, f1) /\ In t ts.
Proof.
  intros Hid Hwf Hes Hsave. apply save4_inv in Hsave.
  destruct Hsave as (ts & f' & Hload & ->).
  pose proof (load4_well_formed es f f' ts Hes Hload) as Hts.
  pose proof (load4_saved es' _ (upsert_well_formed t ts Hwf Hts)) as Hback.
  split.
  - unfold Session4.get_by_id. rewrite Hback. rewrite <- Hid.
    rewrite find_upsert; [reflexivity |].
    unfold id_is. rewrite Hid. apply eq_str_refl.
  - exists (Session4.upsert t ts). split; [exact Hback | apply in_upsert].
Qed.

Lemma session4_save_then_get_witness :
  Session4.get_by_id (fun _ => sample_entropy) "task-1"
    (Session4._save [sample_task]) =
    (Ok (Some sample_task), Session4._save [sample_task]) /\
  exists ts,
    Session4.get_all (fun _ => sample_entropy) (Session4._save [sample_task]) =
      (Ok ts, Session4._save [sample_task]) /\ In sample_task ts.
Proof.
  apply (session4_save_then_get (fun _ => sample_entropy)
           (fun _ => sample_entropy) sample_task "task-1" None);
    reflexivity.
Defined.

Lemma find_none_others (v : pyval) (ts : list Task) :
  forallb (other_task v) ts = true -> find (id_is v) ts = None.
Proof.
  intros H. rewrite <- (app_nil_r ts). now rewrite find_skip.
Qed.

Lemma filter_others (v : pyval) (ts : list Task) :
  forallb (other_task v) (filter (other_task v) ts) = true.
Proof.
  induction ts as [| x ts IH]; cbn [filter]; [reflexivity |].
  destruct (other_task v x) eqn:Hx; cbn [forallb]; now rewrite ?Hx, ?IH.
Qed.

Lemma filter_others_id (v : pyval) (ts : list Task) :
  forallb (other_task v) ts = true -> filter (other_task v) ts = ts.
Proof.
  induction ts as [| x ts IH]; cbn [forallb filter]; [reflexivity |].
  intros H. apply andb_prop in H. destruct H as [Hx H].
  now rewrite Hx, IH.
Qed.

Lemma filter_well_formed (p : Task -> bool) (ts : list Task) :
  Forall well_formed ts -> Forall well_formed (filter p ts).
Proof.
  induction 1 as [| x ts Hx Hts IH]; cbn [filter]; [constructor |].
  destruct (p x); auto.
Qed.

(** X9 -- delete is terminal, in the list-of-Task store: after a
    [delete] that returned [True] (the clock giving well-formed
    timestamps), the file holds the records of the loaded tasks with
    another id, [get_by_id] of the id returns [None], and a second
    [delete] returns [False] and leaves the file as it is. *)
Theorem session4_delete_is_terminal (es es' : nat -> entropy)
  (task_id : string) (f f1 : fs) :
  (forall k, datetime_ok (utcnow (es k)) = true) ->
  Session4.delete es task_id f = (Ok true, f1) ->
  (exists ts f',
     Session4._load es f = (Ok ts, f') /\
     f1 = Session4._save (filter (other_task (PStr task_id)) ts)) /\
  Session4.get_by_id es' task_id f1 = (Ok None, f1) /\
  Session4.delete es' task_id f1 = (Ok false, f1).
Proof.
  intros Hes H. unfold Session4.delete in H.
  destruct (Session4._load es f) as [[ts | x] f'] eqn:Hload;
    [| discriminate].
  pose proof (load4_well_formed es f f' ts Hes Hload) as Hts.
  change (fun task => negb (id_is (PStr task_id) task))
    with (other_task (PStr task_id)) in H.
  destruct (Nat.ltb (List.length (filter (other_task (PStr task_id)) ts))
                    (List.length ts)); [| discriminate].
  inversion H; subst f1; clear H.
  pose proof (load4_saved es' _
                (filter_well_formed (other_task (PStr task_id)) ts Hts))
    as Hback.
  split; [eauto |]. split.
  - unfold Session4.get_by_id. rewrite Hback.
    now rewrite find_none_others by apply filter_others.
  - unfold Session4.delete. rewrite Hback.
    change (fun task => negb (id_is (PStr task_id) task))
      with (other_task (PStr task_id)).
    rewrite filter_others_id by apply filter_others.
    now rewrite Nat.ltb_irrefl.
Qed.

Lemma session4_delete_is_terminal_witness :
  (exists ts f',
     Session4._load (fun _ => sample_entropy)
       (Session4._save [sample_task]) = (Ok ts, f') /\
     Session4._save [] =
     Session4._save (filter (other_task (PStr "task-1")) ts)) /\
  Session4.get_by_id (fun _ => sample_entropy) "task-1" (Session4._save []) =
    (Ok None, Session4._save []) /\
  Session4.delete (fun _ => sample_entropy) "task-1" (Session4._save []) =
    (Ok false, Session4._save []).
Proof.
  apply (session4_delete_is_terminal (fun _ => sample_entropy)
           (fun _ => sample_entropy) "task-1" (Session4._save [sample_task]));
    reflexivity.
Defined.

Lemma from_dicts_app (es : nat -> entropy) (l1 : list pyval) :
  forall (i : nat) (l2 : list pyval),
    Session4.from_dicts es i (l1 ++ l2) =
    (r1 <- Session4.from_dicts es i l1 ;;
     r2 <- Session4.from_dicts es (i + List.length l1) l2 ;;
     Ok (r1 ++ r2)).
Proof.
  induction l1 as [| x l1 IH]; intros i l2; cbn [app List.length].
  - cbn [Session4.from_dicts bind]. rewrite Nat.add_0_r.
    now destruct (Session4.from_dicts es i l2).
  - cbn [Session4.from_dicts]. rewrite IH.
    replace (i + S (List.length l1)) with (S i + List.length l1) by lia.
    destruct (from_dict (es i) x) as [t |]; cbn [bind]; [| reflexivity].
    destruct (Session4.from_dicts es (S i) l1) as [r1 |]; cbn [bind];
      [| reflexivity].
    now destruct (Session4.from_dicts es (S i + List.length l1) l2).
Qed.

(** X10 -- one corrupt record empties the list-of-Task store: when the
    file holds the records of well-formed tasks followed by one record
    that [from_dict] rejects with a [ValueError] (and anything after
    it), [get_all] returns the empty list and overwrites the file with
    an empty array, so the records around the corrupt one are lost. *)
Theorem session4_corrupt_record_empties_store (es : nat -> entropy)
  (ts1 : list Task) (bad : pyval) (after : list pyval) :
  Forall well_formed ts1 ->
  corrupt_record bad ->
  Session4.get_all es (Some (Json (PList (map to_dict ts1 ++ bad :: after)))) =
  (Ok [], empty_file).
Proof.
  intros H1 Hbad. unfold Session4.get_all, Session4._load.
  cbn [iter bind]. rewrite from_dicts_app.
  rewrite from_dicts_to_dicts by assumption. cbn [bind Session4.from_dicts].
  destruct (Hbad (es (0 + List.length (map to_dict ts1)))) as [m ->].
  reflexivity.
Qed.

Lemma session4_corrupt_record_empties_store_witness :
  Session4.get_all (fun _ => sample_entropy)
    (Some (Json (PList (map to_dict [sample_task] ++
                        bogus_record :: [to_dict second_task])))) =
  (Ok [], empty_file).
Proof.
  apply session4_corrupt_record_empties_store.
  - repeat constructor.
  - intros e. eexists. reflexivity.
Defined.

End Session4More.

(* ================================================================== *)
(** * Further properties of [models.py] and of the SQL validator        *)
(* ================================================================== *)

Section ModelsMore.

(** X11 -- [from_dict] on an entry that is not a dict: for a number,
    string, list, boolean or null it raises [TypeError] or
    [AttributeError], never the [ValueError] that the stores take for a
    corrupt record. *)
Theorem from_dict_rejects_non_record (e : entropy) (v : pyval) :
  (forall d, v <> PDict d) ->
  from_dict e v = Err TypeError \/ from_dict e v = Err AttributeError.
Proof.
  intros Hv. unfold from_dict, from_dict_body, present_and_truthy.
  destruct v as [| b | z | s | l | d]; cbn [contains getitem get bind]; auto.
  - destruct (substring_in "status" s); cbn [bind]; auto.
    destruct (substring_in "priority" s); cbn [bind]; auto.
    destruct (substring_in "created_at" s); cbn [bind]; auto.
  - destruct (in_list (PStr "status") l); cbn [bind]; auto.
    destruct (in_list (PStr "priority") l); cbn [bind]; auto.
    destruct (in_list (PStr "created_at") l); cbn [bind]; auto.
  - now destruct (Hv d).
Qed.

Lemma from_dict_rejects_non_record_witness :
  from_dict sample_entropy (PInt 5) = Err TypeError \/
  from_dict sample_entropy (PInt 5) = Err AttributeError.
Proof. apply from_dict_rejects_non_record. discriminate. Defined.

(** X12 -- the enums and their string values: [TaskStatus(v)] returns a
    member exactly when [v] is the string value of that member, and
    likewise [TaskPriority(v)]; so what [to_dict] writes for the two
    fields reads back as the same members, and nothing else does. *)
Theorem enum_of_value_iff (v : pyval) :
  (forall s, TaskStatus_of v = Ok s <-> v = PStr (status_value s)) /\
  (forall p, TaskPriority_of v = Ok p <-> v = PStr (priority_value p)).
Proof.
  split; intros m; split.
  - destruct v as [| | | s | |]; try discriminate.
    intros H. f_equal. cbn [TaskStatus_of] in H.
    destruct (String.eqb_spec s "pending") as [-> |];
      [inversion H; reflexivity |].
    destruct (String.eqb_spec s "in-progress") as [-> |];
      [inversion H; reflexivity |].
    destruct (String.eqb_spec s "completed") as [-> |];
      [inversion H; reflexivity | discriminate].
  - intros ->. apply TaskStatus_of_value.
  - destruct v as [| | | s | |]; try discriminate.
    intros H. f_equal. cbn [TaskPriority_of] in H.
    destruct (String.eqb_spec s "low") as [-> |];
      [inversion H; reflexivity |].
    destruct (String.eqb_spec s "medium") as [-> |];
      [inversion H; reflexivity |].
    destruct (String.eqb_spec s "high") as [-> |];
      [inversion H; reflexivity | discriminate].
  - intros ->. apply TaskPriority_of_value.
Qed.

(** X13 -- the validator of [session1_model1] has no description rule:
    whenever the validator of [models.py] returns for a field map, the
    validator of [session1_model1/app.py] returns too, in either mode,
    and the list of [models.py] is its list followed by the
    description-length violation, if any; in full mode its list holds
    the title, status and priority violations only. *)
Theorem sql_validator_lacks_description_rule (d : list (string * pyval))
  (partial : bool) (errs : list string) :
  validate_task_data (PDict d) partial = Ok errs ->
  exists errs1,
    Session1Model1.validate_task_data (PDict d) partial = Ok errs1 /\
    errs = errs1 ++ description_length d /\
    (partial = false ->
     errs1 = title_required d ++ title_length d ++ status_member d ++
             priority_member d).
Proof.
  unfold validate_task_data, Session1Model1.validate_task_data. intros H.
  apply bind_Ok_inv in H. destruct H as (e1 & H1 & H).
  apply bind_Ok_inv in H. destruct H as (e2 & H2 & H).
  apply bind_Ok_inv in H. destruct H as (e3 & H3 & H).
  apply bind_Ok_inv in H. destruct H as (e4 & H4 & H).
  inversion H; subst errs; clear H.
  rewrite H1. cbn [bind]. rewrite H2. cbn [bind]. rewrite H3. cbn [bind].
  exists e3. split; [reflexivity |]. split.
  - now apply description_step in H4.
  - intros ->. cbn [negb] in H1. apply title_step in H1.
    apply member_step in H2. apply member_step in H3. subst.
    unfold status_member, priority_member. now rewrite <- !app_assoc.
Qed.

Lemma sql_validator_lacks_description_rule_witness :
  exists errs1,
    Session1Model1.validate_task_data
      (PDict [("title", PStr ""); ("description", PStr (repeat_char "x" 1001))])
      false = Ok errs1 /\
    ["Title is required"; "Description must be less than 1000 characters"] =
    errs1 ++
    description_length
      [("title", PStr ""); ("description", PStr (repeat_char "x" 1001))] /\
    (false = false ->
     errs1 =
     title_required
       [("title", PStr ""); ("description", PStr (repeat_char "x" 1001))] ++
     title_length
       [("title", PStr ""); ("description", PStr (repeat_char "x" 1001))] ++
     status_member
       [("title", PStr ""); ("description", PStr (repeat_char "x" 1001))] ++
     priority_member
       [("title", PStr ""); ("description", PStr (repeat_char "x" 1001))]).
Proof.
  apply sql_validator_lacks_description_rule. vm_compute. reflexivity.
Defined.

End ModelsMore.

Section Session4Effects.

Lemma bind_Err_inv {A B : Type} (r : result A) (k : A -> result B) (x : exn) :
  bind r k = Err x -> r = Err x \/ exists a, r = Ok a /\ k a = Err x.
Proof.
  destruct r as [a | y]; cbn [bind]; intros H;
    [right; eauto | left; now inversion H].
Qed.

Lemma guarded_errors {A : Type} (k : string) (data : pyval)
  (conv : pyval -> result A) (default : A) (x : exn) :
  (forall v y, conv v = Err y -> y = ValueError LibMsg \/ y = TypeError) ->
  (b <- present_and_truthy k data ;;
   if b then (v <- getitem k data ;; conv v) else Ok default) = Err x ->
  x = ValueError LibMsg \/ x = TypeError \/ x = KeyError.
Proof.
  intros Hconv H. unfold present_and_truthy in H.
  destruct data as [| b | z | s | l | d]; cbn [contains getitem bind] in H;
    try (inversion H; auto; fail).
  - destruct (substring_in k s); cbn [bind] in H; inversion H; auto.
  - destruct (in_list (PStr k) l); cbn [bind] in H; inversion H; auto.
  - destruct (assoc k d) as [v |]; cbn [bind] in H; [| discriminate].
    destruct (truthy v); [| discriminate].
    destruct (Hconv v x H) as [-> | ->]; auto.
Qed.

Lemma from_dict_errors (e : entropy) (v : pyval) (x : exn) :
  from_dict e v = Err x -> load_error x.
Proof.
  unfold from_dict, load_error.
  destruct (from_dict_body e v) as [t | y] eqn:Hb; [discriminate |].
  assert (Hy : y = ValueError LibMsg \/ y = TypeError \/ y = KeyError \/
               y = AttributeError).
  { unfold from_dict_body in Hb.
    apply bind_Err_inv in Hb. destruct Hb as [Hb | (st & _ & Hb)].
    { eapply guarded_errors in Hb; [intuition |].
      intros v0 y0 H0. left. now apply TaskStatus_of_err in H0. }
    apply bind_Err_inv in Hb. destruct Hb as [Hb | (pr & _ & Hb)].
    { eapply guarded_errors in Hb; [intuition |].
      intros v0 y0 H0. left. now apply TaskPriority_of_err in H0. }
    apply bind_Err_inv in Hb. destruct Hb as [Hb | (ca & _ & Hb)].
    { eapply guarded_errors in Hb; [intuition |].
      intros v0 y0 H0. unfold fromisoformat_value in H0.
      destruct v0; try (inversion H0; auto; fail).
      destruct (fromisoformat s); inversion H0; auto. }
    destruct v; cbn [get bind] in Hb; inversion Hb; auto. }
  destruct Hy as [-> | [-> | [-> | ->]]]; intros H; inversion H; eauto.
Qed.

Lemma from_dicts_errors (es : nat -> entropy) (items : list pyval) :
  forall (i : nat) (x : exn),
    Session4.from_dicts es i items = Err x -> load_error x.
Proof.
  induction items as [| v items IH]; intros i x H;
    cbn [Session4.from_dicts] in H; [discriminate |].
  apply bind_Err_inv in H. destruct H as [H | (t & _ & H)].
  - eapply from_dict_errors; eauto.
  - apply bind_Err_inv in H. destruct H as [H | (ts & _ & H)];
      [eauto | discriminate].
Qed.

(** X14 -- what loading does to the file, in the list-of-Task store:
    [get_all] leaves the file as it is, or returns the empty list and
    leaves an empty array (the recovery); when it raises, the exception
    is a [TypeError] or an [AttributeError] and the file is as it was. *)
Theorem session4_load_effects (es : nat -> entropy) (f f' : fs)
  (r : result (list Task)) :
  Session4.get_all es f = (r, f') ->
  (f' = f \/ (r = Ok [] /\ f' = empty_file)) /\
  (forall x, r = Err x -> f' = f /\ (x = TypeError \/ x = AttributeError)).
Proof.
  unfold Session4.get_all, Session4._load.
  destruct f as [[raw | raw | data] |];
    try (intros H; inversion H; subst; split; [auto | discriminate]).
  destruct (items <- iter data ;; Session4.from_dicts es 0 items)
    as [ts | x] eqn:Hl.
  - intros H; inversion H; subst; split; [auto | discriminate].
  - assert (Hx : load_error x).
    { apply bind_Err_inv in Hl. destruct Hl as [Hl | (items & _ & Hl)].
      - destruct data; inversion Hl; right; now left.
      - eapply from_dicts_errors; eauto. }
    destruct Hx as [[m ->] | [-> | ->]]; intros H; inversion H; subst;
      (split; [auto |]); intros y Hy; inversion Hy; auto.
Qed.

Lemma session4_load_effects_witness :
  (Some (Json (PInt 5)) = Some (Json (PInt 5)) \/
   (@Err (list Task) TypeError = Ok [] /\
    Some (Json (PInt 5)) = empty_file)) /\
  (forall x, @Err (list Task) TypeError = Err x ->
     Some (Json (PInt 5)) = Some (Json (PInt 5)) /\
     (x = TypeError \/ x = AttributeError)).
Proof.
  apply (session4_load_effects (fun _ => sample_entropy)
           (Some (Json (PInt 5)))).
  reflexivity.
Defined.

End Session4Effects.

(* ================================================================== *)
(** * Further properties of the task manager                            *)
(* ================================================================== *)

Section ManagerMore.

Context {S : Type} {storage : Storage S}.

Lemma app_nil_inv {A : Type} (l1 l2 : list A) :
  l1 ++ l2 = [] -> l1 = [] /\ l2 = [].
Proof. destruct l1; cbn [app]; [auto | discriminate]. Qed.

(** The input checks of [create_task] cover the checks of
    [Task.validate] on the task it builds. *)
Lemma create_validation_covers (ti de st pr i : pyval) (s : TaskStatus)
  (p : TaskPriority) (c : datetime) :
  validate_task_data
    (PDict [("title", ti); ("description", de); ("status", st);
            ("priority", pr)]) false = Ok [] ->
  validate (mkTask ti de s p i c) = Ok [].
Proof.
  unfold validate_task_data. cbn [negb]. intros H.
  apply bind_Ok_inv in H. destruct H as (e1 & H1 & H).
  apply bind_Ok_inv in H. destruct H as (e2 & H2 & H).
  apply bind_Ok_inv in H. destruct H as (e3 & H3 & H).
  apply bind_Ok_inv in H. destruct H as (e4 & H4 & H).
  inversion H; subst e4; clear H.
  pose proof (member_step _ _ _ _ _ _ H2) as E2.
  pose proof (member_step _ _ _ _ _ _ H3) as E3.
  pose proof (description_step _ _ _ H4) as E4.
  symmetry in E4. apply app_nil_inv in E4. destruct E4 as [-> _].
  symmetry in E3. apply app_nil_inv in E3. destruct E3 as [-> _].
  symmetry in E2. apply app_nil_inv in E2. destruct E2 as [-> _].
  clear H2 H3.
  cbn [get getitem contains assoc String.eqb Ascii.eqb Bool.eqb bind]
    in H1, H4.
  unfold validate. cbn [Models.title Models.description].
  destruct (truthy ti); cbn [negb] in *; [| discriminate].
  destruct (len ti) as [n |]; cbn [bind] in *; [| discriminate].
  destruct (Nat.ltb 200 n); [discriminate |]. cbn [bind].
  destruct de; cbn [len bind] in *; try discriminate; try reflexivity;
    match goal with
    | |- context [Nat.ltb 1000 ?k] =>
        destruct (Nat.ltb 1000 k); [discriminate | reflexivity]
    end.
Qed.

Lemma create_task_inv (e : entropy) (ti de st pr : pyval) (s s' : S)
  (t : Task) :
  TaskManager.create_task e ti de st pr s = (Ok t, s') ->
  exists ts tp,
    TaskStatus_of st = Ok ts /\ TaskPriority_of pr = Ok tp /\
    t = mkTask ti de ts tp (PStr (uuid4 e)) (utcnow e) /\
    validate t = Ok [] /\
    save t s = (Ok tt, s').
Proof.
  unfold TaskManager.create_task. intros H.
  destruct (validate_task_data
              (PDict [("title", ti); ("description", de); ("status", st);
                      ("priority", pr)]) false) as [[| m errs] | x] eqn:Hv;
    try discriminate.
  destruct (TaskStatus_of st) as [ts | [| | | |]] eqn:Hs; cbn [bind] in H;
    try discriminate.
  destruct (TaskPriority_of pr) as [tp | [| | | |]] eqn:Hp; cbn [bind] in H;
    try discriminate.
  destruct (save (mkTask ti de ts tp (PStr (uuid4 e)) (utcnow e)) s)
    as [[[] | x] s1] eqn:Hsave; try discriminate.
  inversion H; subst t s1; clear H.
  exists ts, tp. repeat split; auto.
  eapply create_validation_covers; exact Hv.
Qed.

(** X15 -- what [create_task] returns: when it succeeds, the task is
    built from the arguments as given, with the status and priority
    members named by the two strings, the generated id and the current
    time; the task passes [Task.validate]; and it is the task that was
    handed to [save], whose new state is the state returned. *)
Theorem create_task_builds_valid_task (e : entropy) (ti de st pr : pyval)
  (s s' : S) (t : Task) :
  TaskManager.create_task e ti de st pr s = (Ok t, s') ->
  title t = ti /\ description t = de /\
  st = PStr (status_value (status t)) /\
  pr = PStr (priority_value (priority t)) /\
  id t = PStr (uuid4 e) /\ created_at t = utcnow e /\
  validate t = Ok [] /\
  save t s = (Ok tt, s').
Proof.
  intros H. apply create_task_inv in H.
  destruct H as (ts & tp & Hs & Hp & -> & Hval & Hsave).
  cbn [Models.title Models.description Models.status Models.priority
       Models.id Models.created_at].
  repeat split; auto.
  - destruct st as [| | | x | |]; try discriminate.
    f_equal. now apply TaskStatus_of_inv.
  - destruct pr as [| | | x | |]; try discriminate.
    f_equal. now apply TaskPriority_of_inv.
Qed.

(** X16 -- [update_task] never accepts an invalid task: the task it
    returns passes [Task.validate], so a patch whose title is empty or
    longer than 200 characters never succeeds, although the partial
    validation of the patch lets such a title through. *)
Theorem update_task_returns_valid_task (task_id : string)
  (patch : list (string * pyval)) (st st' : S) (t' : Task) :
  TaskManager.update_task task_id (PDict patch) st = (Ok t', st') ->
  validate t' = Ok [] /\
  (forall v, assoc "title" patch = Some v ->
             truthy v = true /\ longer_than 200 v = false).
Proof.
  unfold TaskManager.update_task. intros H.
  destruct (get_by_id task_id st) as [[[t |] | x] st1]; try discriminate.
  destruct (validate_task_data (PDict patch) true) as [[| m errs] | x];
    try discriminate.
  destruct (TaskManager.apply_updates t (PDict patch)) as [t1 | x] eqn:Happ;
    try discriminate.
  destruct (validate t1) as [[| m errs] | x] eqn:Hval; try discriminate.
  destruct (save t1 st1) as [[[] | x] st2]; try discriminate.
  inversion H; subst t1 st2; clear H.
  split; [exact Hval |]. intros v Hv.
  apply apply_updates_fields in Happ.
  destruct Happ as (_ & _ & Htitle & _). rewrite Hv in Htitle.
  apply validate_full in Hval. unfold task_violations in Hval.
  rewrite Htitle in Hval.
  destruct (truthy v); [| discriminate Hval].
  destruct (longer_than 200 v); [discriminate Hval | auto].
Qed.

End ManagerMore.

Lemma create_task_builds_valid_task_witness :
  title sample_task = PStr "A" /\ description sample_task = PNone /\
  PStr "pending" = PStr (status_value (status sample_task)) /\
  PStr "low" = PStr (priority_value (priority sample_task)) /\
  id sample_task = PStr (uuid4 (mkEntropy noon "task-1")) /\
  created_at sample_task = utcnow (mkEntropy noon "task-1") /\
  validate sample_task = Ok [] /\
  save (Storage := Session1_Storage) sample_task sample_world =
    (Ok tt,
     snd (TaskManager.create_task (storage := Session1_Storage)
            (mkEntropy noon "task-1") (PStr "A") PNone (PStr "pending")
            (PStr "low") sample_world)).
Proof.
  apply (create_task_builds_valid_task (storage := Session1_Storage)
           (mkEntropy noon "task-1") (PStr "A") PNone (PStr "pending")
           (PStr "low") sample_world).
  vm_compute. reflexivity.
Defined.

Lemma update_task_returns_valid_task_witness :
  validate (mkTask (PStr "C") PNone PENDING LOW (PStr "task-1") noon) = Ok [] /\
  (forall v, assoc "title" [("title", PStr "C")] = Some v ->
             truthy v = true /\ longer_than 200 v = false).
Proof.
  apply (update_task_returns_valid_task (storage := Session1_Storage)
           "task-1" [("title", PStr "C")] stored_world
           (snd (TaskManager.update_task (storage := Session1_Storage)
                   "task-1" (PDict [("title", PStr "C")]) stored_world))).
  vm_compute. reflexivity.
Defined.

(* ================================================================== *)
(** * The task manager over the store of [session1_model2]              *)
(* ================================================================== *)

Section ManagerOverSession1.

Lemma run_inv {A : Type} (op : (nat -> entropy) -> fs -> result A * fs)
  (w w' : world) (r : result A) :
  run op w = (r, w') -> op (drawn (rand w)) (file w) = (r, file w').
Proof.
  unfold run. destruct (op (drawn (rand w)) (file w)) as [r0 f0].
  intros H. inversion H; subst. reflexivity.
Qed.

Lemma run_intro {A : Type} (op : (nat -> entropy) -> fs -> result A * fs)
  (w : world) (r : result A) (f' : fs) :
  op (drawn (rand w)) (file w) = (r, f') ->
  run op w = (r, mkWorld f' (rest (rand w))).
Proof. unfold run. now intros ->. Qed.

Lemma save_run (t : Task) (w w' : world) (r : result unit) :
  save (Storage := Session1_Storage) t w = (r, w') ->
  Session1.save t (file w) = (r, file w').
Proof. exact (run_inv (fun _ => Session1.save t) w w' r). Qed.

Lemma get_by_id_run (task_id : string) (w w' : world)
  (r : result (option Task)) :
  get_by_id (Storage := Session1_Storage) task_id w = (r, w') ->
  Session1.get_by_id (drawn (rand w)) task_id (file w) = (r, file w').
Proof.
  exact (run_inv (fun es => Session1.get_by_id es task_id) w w' r).
Qed.

Lemma delete_run (task_id : string) (w w' : world) (r : result bool) :
  delete (Storage := Session1_Storage) task_id w = (r, w') ->
  Session1.delete task_id (file w) = (r, file w').
Proof. exact (run_inv (fun _ => Session1.delete task_id) w w' r). Qed.

Lemma get_by_id1_pure (es : nat -> entropy) (task_id : string) (f f' : fs)
  (r : result (option Task)) :
  Session1.get_by_id es task_id f = (r, f') -> f' = f.
Proof.
  unfold Session1.get_by_id.
  destruct (data <- Session1._load f ;;
            items <- iter data ;; Session1.lookup es 0 task_id items);
    now inversion 1.
Qed.

Lemma save1_failure (t : Task) (f f' : fs) (x : exn) :
  Session1.save t f = (Err x, f') -> f' = f.
Proof.
  unfold Session1.save.
  destruct (validate t) as [[| m errs] | y]; try (now inversion 1).
  destruct (Session1.save_body t f); now inversion 1.
Qed.

Lemma delete1_failure (task_id : string) (f f' : fs) (x : exn) :
  Session1.delete task_id f = (Err x, f') -> f' = f.
Proof.
  unfold Session1.delete.
  destruct (Session1.delete_body task_id f) as [[b f0] | y]; now inversion 1.
Qed.

(** X17 -- a manager call that raises leaves the file as it was, over
    the list-of-dict store: whatever [create_task], [update_task] or
    [delete_task] raises -- a validation error, a missing id, an
    [IOError] of the store -- nothing was written. *)
Theorem session1_manager_failures_leave_file (w w' : world) (x : exn) :
  (forall e ti de st pr,
     TaskManager.create_task (storage := Session1_Storage) e ti de st pr w =
       (Err x, w') -> file w' = file w) /\
  (forall task_id updates,
     TaskManager.update_task (storage := Session1_Storage) task_id updates w =
       (Err x, w') -> file w' = file w) /\
  (forall task_id,
     TaskManager.delete_task (storage := Session1_Storage) task_id w =
       (Err x, w') -> file w' = file w).
Proof.
  split; [| split].
  - intros e ti de st pr. unfold TaskManager.create_task.
    destruct (validate_task_data _ false) as [[| m errs] | y];
      try (now inversion 1).
    destruct (task_status <- TaskStatus_of st ;;
              task_priority <- TaskPriority_of pr ;;
              Ok (task_status, task_priority)) as [[ts tp] | [| | | |]];
      try (now inversion 1).
    destruct (save _ w) as [[[] | y] w1] eqn:Hs; [discriminate |].
    intros H; inversion H; subst.
    apply save_run in Hs. now apply save1_failure in Hs.
  - intros task_id updates. unfold TaskManager.update_task.
    destruct (get_by_id task_id w) as [r w1] eqn:Hg.
    apply get_by_id_run, get_by_id1_pure in Hg.
    destruct r as [[t |] | y]; try (intros H; inversion H; subst; exact Hg).
    destruct (validate_task_data updates true) as [[| m errs] | y];
      try (intros H; inversion H; subst; exact Hg).
    destruct (TaskManager.apply_updates t updates) as [t1 | y];
      try (intros H; inversion H; subst; exact Hg).
    destruct (validate t1) as [[| m errs] | y];
      try (intros H; inversion H; subst; exact Hg).
    destruct (save t1 w1) as [[[] | y] w2] eqn:Hs; [discriminate |].
    intros H; inversion H; subst.
    apply save_run in Hs. apply save1_failure in Hs. congruence.
  - intros task_id H. apply delete_run in H. now apply delete1_failure in H.
Qed.

Lemma session1_manager_failures_leave_file_witness :
  file (snd (TaskManager.update_task (storage := Session1_Storage)
               "missing" (PDict []) stored_world)) = file stored_world.
Proof.
  apply (proj1 (proj2 (session1_manager_failures_leave_file stored_world
           (snd (TaskManager.update_task (storage := Session1_Storage)
                   "missing" (PDict []) stored_world))
           (ValueError (Msg "Task not found: missing")))) "missing" (PDict [])).
  vm_compute. reflexivity.
Defined.

(** X18 -- create then get, over the list-of-dict store: after a
    successful [create_task] (the clock giving a well-formed
    timestamp), [get_task] of the generated id returns the task that
    [create_task] returned, without writing the file. *)
Theorem session1_create_then_get (e : entropy) (ti de st pr : pyval)
  (w w1 : world) (t : Task) :
  datetime_ok (utcnow e) = true ->
  TaskManager.create_task (storage := Session1_Storage) e ti de st pr w =
    (Ok t, w1) ->
  exists w2,
    TaskManager.get_task (storage := Session1_Storage) (uuid4 e) w1 =
      (Ok (Some t), w2) /\
    file w2 = file w1.
Proof.
  intros Hnow H. apply create_task_inv in H.
  destruct H as (ts & tp & _ & _ & Ht & _ & Hsave).
  apply save_run in Hsave.
  assert (Hid : id t = PStr (uuid4 e)) by now subst t.
  assert (Hwf : well_formed t) by now subst t.
  pose proof (get_by_id1_after_save (drawn (rand w1)) t (uuid4 e) _ _
                Hid Hwf Hsave) as Hget.
  eexists. split.
  - unfold TaskManager.get_task. cbn [get_by_id Session1_Storage].
    apply run_intro. exact Hget.
  - reflexivity.
Qed.

Lemma session1_create_then_get_witness :
  exists w2,
    TaskManager.get_task (storage := Session1_Storage) "task-1"
      (snd (TaskManager.create_task (storage := Session1_Storage)
              (mkEntropy noon "task-1") (PStr "A") PNone (PStr "pending")
              (PStr "low") sample_world)) =
      (Ok (Some sample_task), w2) /\
    file w2 =
    file (snd (TaskManager.create_task (storage := Session1_Storage)
                 (mkEntropy noon "task-1") (PStr "A") PNone (PStr "pending")
                 (PStr "low") sample_world)).
Proof.
  apply (session1_create_then_get (mkEntropy noon "task-1") (PStr "A") PNone
           (PStr "pending") (PStr "low") sample_world).
  - reflexivity.
  - vm_compute. reflexivity.
Defined.

Lemma count_after_save1 (t : Task) (i : string) (f f1 : fs) :
  id t = PStr i ->
  Session1.save t f = (Ok tt, f1) ->
  Nat.eqb (count_id (PStr i) f1) 0 = false.
Proof.
  intros Hid Hsave. apply save1_inv in Hsave.
  destruct Hsave as (_ & l & _ & Hcases).
  assert (Hin : forall l1 l2,
             Nat.eqb (count_id (PStr i)
                        (Some (Json (PList (l1 ++ to_dict t :: l2))))) 0
             = false).
  { intros l1 l2. unfold count_id. cbn [records].
    rewrite filter_app. cbn [filter].
    rewrite has_id_to_dict, Hid, eq_str_refl, length_app.
    cbn [List.length]. apply Nat.eqb_neq. lia. }
  destruct Hcases as [(l1 & r & l2 & _ & _ & _ & ->) | (_ & ->)]; apply Hin.
Qed.

(** X19 -- create, delete, get, over the list-of-dict store: after a
    successful [create_task], a [delete_task] of the generated id that
    returns, returns [True]; after it [get_task] of the id returns
    [None], and a second [delete_task] returns [False]. *)
Theorem session1_create_delete_get (e : entropy) (ti de st pr : pyval)
  (w w1 w2 : world) (t : Task) (b : bool) :
  TaskManager.create_task (storage := Session1_Storage) e ti de st pr w =
    (Ok t, w1) ->
  TaskManager.delete_task (storage := Session1_Storage) (uuid4 e) w1 =
    (Ok b, w2) ->
  b = true /\
  (exists w3,
     TaskManager.get_task (storage := Session1_Storage) (uuid4 e) w2 =
       (Ok None, w3) /\ file w3 = file w2) /\
  (exists w3,
     TaskManager.delete_task (storage := Session1_Storage) (uuid4 e) w2 =
       (Ok false, w3) /\ file w3 = file w2).
Proof.
  intros Hc Hd. apply create_task_inv in Hc.
  destruct Hc as (ts & tp & _ & _ & Ht & _ & Hsave).
  apply save_run in Hsave. apply delete_run in Hd.
  assert (Hid : id t = PStr (uuid4 e)) by now subst t.
  pose proof (count_after_save1 t (uuid4 e) _ _ Hid Hsave) as Hcount.
  pose proof (delete1_inv _ _ _ _ Hd) as Hinv. cbv zeta in Hinv.
  destruct Hinv as (_ & Hb & _). rewrite Hcount in Hb. cbn [negb] in Hb.
  subst b. split; [reflexivity |].
  split; eexists; split.
  - unfold TaskManager.get_task. cbn [get_by_id Session1_Storage].
    apply run_intro.
    exact (proj1 (delete1_then (drawn (rand w2)) _ _ _ Hd)).
  - reflexivity.
  - unfold TaskManager.delete_task. cbn [delete Session1_Storage].
    apply run_intro.
    exact (proj2 (delete1_then (drawn (rand w2)) _ _ _ Hd)).
  - reflexivity.
Qed.

Lemma session1_create_delete_get_witness :
  true = true /\
  (exists w3,
     TaskManager.get_task (storage := Session1_Storage) "task-1"
       (snd (TaskManager.delete_task (storage := Session1_Storage) "task-1"
               stored_world)) = (Ok None, w3) /\
     file w3 =
     file (snd (TaskManager.delete_task (storage := Session1_Storage)
                  "task-1" stored_world))) /\
  (exists w3,
     TaskManager.delete_task (storage := Session1_Storage) "task-1"
       (snd (TaskManager.delete_task (storage := Session1_Storage) "task-1"
               stored_world)) = (Ok false, w3) /\
     file w3 =
     file (snd (TaskManager.delete_task (storage := Session1_Storage)
                  "task-1" stored_world))).
Proof.
  apply (session1_create_delete_get (mkEntropy noon "task-1") (PStr "A")
           PNone (PStr "pending") (PStr "low")
           (mkWorld None (fun _ => sample_entropy))
           (mkWorld (Some (Json (PList [to_dict sample_task])))
                    (rest (fun _ => sample_entropy)))
           _ sample_task true).
  - vm_compute. reflexivity.
  - vm_compute. reflexivity.
Defined.

End ManagerOverSession1.

Section UpdateThenGet.

Lemma lookup_from_dict (es : nat -> entropy) (task_id : string) (t : Task) :
  forall (l : list pyval) (i : nat),
    Session1.lookup es i task_id l = Ok (Some t) ->
    exists k x, from_dict (es k) x = Ok t.
Proof.
  induction l as [| x l IH]; intros i H; cbn [Session1.lookup] in H.
  - discriminate.
  - destruct (get "id" PNone x) as [v |]; cbn [bind] in H; [| discriminate].
    destruct (Py.eq v (PStr task_id)); [| eauto].
    destruct (from_dict (es i) x) as [t0 | y] eqn:Hfd.
    + inversion H; subst. eauto.
    + destruct y; try discriminate. eauto.
Qed.

(** X20 -- update then get, over the list-of-dict store: after a
    successful [update_task] (the clock giving well-formed
    timestamps), [get_task] of the id returns the task that
    [update_task] returned, so the patch is what was persisted. *)
Theorem session1_update_then_get (task_id : string)
  (patch : list (string * pyval)) (w w1 : world) (t' : Task) :
  (forall k, datetime_ok (utcnow (rand w k)) = true) ->
  TaskManager.update_task (storage := Session1_Storage) task_id
    (PDict patch) w = (Ok t', w1) ->
  exists w2,
    TaskManager.get_task (storage := Session1_Storage) task_id w1 =
      (Ok (Some t'), w2) /\
    file w2 = file w1.
Proof.
  intros Hes H. unfold TaskManager.update_task in H.
  destruct (get_by_id task_id w) as [[[t |] | x] w0] eqn:Hg;
    try discriminate.
  destruct (validate_task_data (PDict patch) true) as [[| m errs] | x];
    try discriminate.
  destruct (TaskManager.apply_updates t (PDict patch)) as [t1 | x] eqn:Happ;
    try discriminate.
  destruct (validate t1) as [[| m errs] | x]; try discriminate.
  destruct (save t1 w0) as [[[] | x] w2] eqn:Hs; try discriminate.
  inversion H; subst t1 w2; clear H.
  apply get_by_id_run in Hg. apply save_run in Hs.
  apply apply_updates_fields in Happ.
  destruct Happ as (Hid & Hca & _).
  unfold Session1.get_by_id in Hg.
  destruct (Session1._load (file w)) as [data |]; cbn [bind] in Hg;
    [| discriminate].
  destruct (iter data) as [items |]; cbn [bind] in Hg; [| discriminate].
  destruct (Session1.lookup (drawn (rand w)) 0 task_id items)
    as [[t0 |] |] eqn:Hl; inversion Hg; subst t0.
  pose proof (lookup_found _ _ _ _ _ Hl) as Hidt.
  destruct (lookup_from_dict _ _ _ _ _ Hl) as (k & x & Hfd).
  assert (Hwf : well_formed t').
  { unfold well_formed. rewrite Hca.
    eapply from_dict_well_formed; [| exact Hfd]. apply Hes. }
  rewrite Hidt in Hid.
  pose proof (get_by_id1_after_save (drawn (rand w1)) t' task_id _ _
                Hid Hwf Hs) as Hget.
  eexists. split.
  - unfold TaskManager.get_task. cbn [get_by_id Session1_Storage].
    apply run_intro. exact Hget.
  - reflexivity.
Qed.

Lemma session1_update_then_get_witness :
  exists w2,
    TaskManager.get_task (storage := Session1_Storage) "task-1"
      (snd (TaskManager.update_task (storage := Session1_Storage) "task-1"
              (PDict [("status", PStr "completed")]) stored_world)) =
      (Ok (Some (mkTask (PStr "A") PNone COMPLETED LOW (PStr "task-1") noon)),
       w2) /\
    file w2 =
    file (snd (TaskManager.update_task (storage := Session1_Storage) "task-1"
                 (PDict [("status", PStr "completed")]) stored_world)).
Proof.
  apply (session1_update_then_get "task-1" [("status", PStr "completed")]
           stored_world).
  - intros k. reflexivity.
  - vm_compute. reflexivity.
Defined.

End UpdateThenGet.

Section Session4Order.

(** X21 -- [get_by_id] answers the question asked, in the list-of-Task
    store: a task it returns carries the requested id. *)
Theorem session4_get_by_id_returns_requested (es : nat -> entropy)
  (task_id : string) (f f' : fs) (t : Task) :
  Session4.get_by_id es task_id f = (Ok (Some t), f') ->
  id t = PStr task_id.
Proof.
  unfold Session4.get_by_id.
  destruct (Session4._load es f) as [[ts | x] f0]; [| discriminate].
  intros H. inversion H as [[Hfind Hf]].
  apply find_some in Hfind. destruct Hfind as [_ Hid].
  now apply eq_str_inv in Hid.
Qed.

Lemma session4_get_by_id_returns_requested_witness :
  id sample_task = PStr "task-1".
Proof.
  apply (session4_get_by_id_returns_requested (fun _ => sample_entropy)
           "task-1" (Session4._save [sample_task])
           (Session4._save [sample_task])).
  reflexivity.
Defined.

Lemma other_tasks_of_distinct (t : Task) (ts : list Task) :
  string_id t ->
  Forall string_id ts ->
  ~ In (id t) (map id ts) ->
  forallb (other_task (id t)) ts = true.
Proof.
  intros [i Hi] Hs Hnin. rewrite Hi in *.
  induction Hs as [| x ts [j Hj] Hs IH]; cbn [forallb]; [reflexivity |].
  cbn [map In] in Hnin.
  rewrite IH by tauto. rewrite andb_true_r.
  unfold other_task, id_is. rewrite Hj in *. cbn [Py.eq].
  apply negb_true_iff. apply String.eqb_neq. intros ->. tauto.
Qed.

Lemma save_each4_appends (ess : nat -> nat -> entropy) (ts : list Task) :
  forall (k : nat) (ts0 : list Task),
    Forall well_formed (ts0 ++ ts) ->
    Forall string_id (ts0 ++ ts) ->
    NoDup (map id (ts0 ++ ts)) ->
    save_each4 ess k ts (Session4._save ts0) =
    (Ok tt, Session4._save (ts0 ++ ts)).
Proof.
  induction ts as [| t ts IH]; intros k ts0 Hwf Hstr Hnd; cbn [save_each4].
  - now rewrite app_nil_r.
  - assert (Hsplit : ts0 ++ t :: ts = (ts0 ++ [t]) ++ ts)
      by now rewrite <- app_assoc.
    assert (Hwf0 : Forall well_formed ts0)
      by (apply Forall_app in Hwf; tauto).
    rewrite (save4_spec (ess k) t _ _ ts0 (load4_saved (ess k) ts0 Hwf0)).
    rewrite upsert_appends.
    + rewrite Hsplit in *. now apply IH.
    + apply Forall_app in Hstr. destruct Hstr as [Hs0 Hst].
      inversion Hst; subst.
      apply other_tasks_of_distinct; auto.
      rewrite map_app in Hnd. cbn [map] in Hnd.
      apply NoDup_remove_2 in Hnd. intros Hin. apply Hnd.
      apply in_or_app. now left.
Qed.

(** X22 -- insertion order, in the list-of-Task store: on a store
    constructed over a missing file, saving tasks with well-formed
    timestamps and pairwise distinct string ids one after the other
    leaves the file holding exactly their records, in the order of the
    calls, and [get_all] then returns exactly these tasks in that
    order, the file unchanged. *)
Theorem session4_saves_keep_insertion_order (ess : nat -> nat -> entropy)
  (es : nat -> entropy) (ts : list Task) :
  Forall well_formed ts ->
  Forall string_id ts ->
  NoDup (map id ts) ->
  save_each4 ess 0 ts (Session4._ensure_file_exists None) =
    (Ok tt, Session4._save ts) /\
  Session4.get_all es (Session4._save ts) = (Ok ts, Session4._save ts).
Proof.
  intros Hwf Hstr Hnd. split.
  - apply (save_each4_appends ess ts 0 []); assumption.
  - now apply load4_saved.
Qed.

Lemma session4_saves_keep_insertion_order_witness :
  save_each4 (fun _ _ => sample_entropy) 0 [sample_task; second_task]
    (Session4._ensure_file_exists None) =
    (Ok tt, Session4._save [sample_task; second_task]) /\
  Session4.get_all (fun _ => sample_entropy)
    (Session4._save [sample_task; second_task]) =
    (Ok [sample_task; second_task],
     Session4._save [sample_task; second_task]).
Proof.
  apply session4_saves_keep_insertion_order.
  - repeat constructor.
  - repeat constructor; eexists; reflexivity.
  - repeat constructor; cbn; intuition discriminate.
Defined.

End Session4Order.

(* ================================================================== *)
(** * Reading a file that is not a collection                           *)
(* ================================================================== *)

Section Recovery.







End Recovery.
